(** * Debugger-configuration resolution of CMake Tools ([src/debugger.ts])

    A shallow embedding of [getDebugConfigurationFromCache] and of the
    configuration builders it calls, followed by the properties of the
    resolution chain.

    The resolver is asynchronous but strictly sequential: every [await]
    completes before the next statement runs.  It is modelled in a small
    monad that reads the host (process probe, file system, installed
    extensions, Node's [path] module, message localisation), records the
    probes and warnings it performs in order, and either returns a value or
    throws. *)

From stdpp Require Import base option gmap strings list.
From Stdlib Require Import ZArith Ascii Lia.

#[local] Set Warnings "-clear-no-such-hyp".

Local Open Scope string_scope.
Local Open Scope Z_scope.

(** ** JavaScript string primitives used by the resolver

    A string is a sequence of 8-bit code units.  On the ASCII paths and
    names that the resolver handles, JavaScript's UTF-16 strings behave
    the same. *)

Module JsString.

(** [s.length] *)
Definition length (s : string) : nat := String.length s.

(** [s.slice(n)] for [0 <= n]. *)
Fixpoint drop (n : nat) (s : string) : string :=
  match n, s with
  | O, _ => s
  | S _, EmptyString => EmptyString
  | S n', String _ s' => drop n' s'
  end.

(** [s.startsWith(p)] *)
Fixpoint startsWith (s p : string) : bool :=
  match p, s with
  | EmptyString, _ => true
  | String _ _, EmptyString => false
  | String a p', String b s' => Ascii.eqb a b && startsWith s' p'
  end.

(** [s.endsWith(p)]: the last [p.length] characters of [s] are [p]. *)
Definition endsWith (s p : string) : bool :=
  (length p <=? length s)%nat && String.eqb (drop (length s - length p) s) p.

(** First index at which the literal [p] occurs in [s], counted from
    [i]; [-1] when it does not occur. *)
Fixpoint indexFrom (i : Z) (p s : string) : Z :=
  if startsWith s p then i
  else match s with
       | EmptyString => -1
       | String _ s' => indexFrom (i + 1) p s'
       end.

(** [s.search(new RegExp(p))] for a pattern [p] without metacharacters
    (the resolver only passes ['lldb-mi'], ['gdb'] and ['lldb']). *)
Definition search (s p : string) : Z := indexFrom 0 p s.

(** Canonicalisation of the [i] flag on a code unit: without the [u]
    flag only the ASCII letters fold onto each other. *)
Definition fold_case (c : ascii) : ascii :=
  if Ascii.leb "A" c && Ascii.leb c "Z"
  then ascii_of_N (N_of_ascii c + 32)
  else c.

Definition eqb_ci (a b : ascii) : bool :=
  Ascii.eqb (fold_case a) (fold_case b).

(** The literal [p] matches at the start of [s], ignoring case. *)
Fixpoint startsWith_ci (s p : string) : bool :=
  match p, s with
  | EmptyString, _ => true
  | String _ _, EmptyString => false
  | String a p', String b s' => eqb_ci a b && startsWith_ci s' p'
  end.

(** Number of ['+'] characters at the start of [s], at most [max]
    (the greedy choice of [[\+]{0,max}]). *)
Fixpoint plus_run (max : nat) (s : string) : nat :=
  match max, s with
  | S m, String "+"%char s' => S (plus_run m s')
  | _, _ => O
  end.

(** No ['/'] and no ['\'] in [s]: the lookahead [(?=[^\/\\]*$)]. *)
Fixpoint no_separator (s : string) : bool :=
  match s with
  | EmptyString => true
  | String c s' =>
      negb (Ascii.eqb c "/") && negb (Ascii.eqb c "\") && no_separator s'
  end.

End JsString.

(** ** The two regular expressions of the resolver *)

Module Regex.
Import JsString.

(** [/(clang[\+]{0,2})+(?!-cl)/gi] anchored at the start of [s]: the
    length of the match a backtracking matcher finds, if any.

    One iteration of the group consumes [clang] and then greedily up to
    two ['+'].  After an iteration the matcher first tries a further
    iteration (the outer [+] is greedy); failing that it tests the
    negative lookahead at the current position; failing that it gives
    back one ['+'] of the current iteration and tries again. *)
Fixpoint clang_match_at (fuel : nat) (s : string) : option nat :=
  match fuel with
  | O => None
  | S fuel' =>
      if startsWith_ci s "clang" then
        let r := drop 5 s in
        (fix give_back (k : nat) : option nat :=
           let r' := drop k r in
           match clang_match_at fuel' r' with
           | Some n => Some (5 + k + n)%nat
           | None =>
               if negb (startsWith_ci r' "-cl") then Some (5 + k)%nat
               else match k with
                    | O => None
                    | S k' => give_back k'
                    end
           end) (plus_run 2 r)
      else None
  end.

(** Every iteration consumes at least five characters, so [length s]
    units of fuel are never used up. *)
Definition clang_match (s : string) : option nat :=
  clang_match_at (length s) s.

(** [/([cg]\+\+|g?cc)(?=[^\/\\]*$)/gi] anchored at the start of [s].
    The alternatives are tried in order: [c++] or [g++]; then [gcc]
    ([g?] is greedy); then [cc]. *)
Definition gcc_match (s : string) : option nat :=
  if (startsWith_ci s "c++" || startsWith_ci s "g++")
     && no_separator (drop 3 s) then Some 3%nat
  else if startsWith_ci s "gcc" && no_separator (drop 3 s) then Some 3%nat
  else if startsWith_ci s "cc" && no_separator (drop 2 s) then Some 2%nat
  else None.

(** [s.replace(re, rep)] for a global regular expression whose matches
    are never empty and a replacement without [$] patterns: scan left
    to right; at a match, emit [rep] and resume after the match;
    otherwise copy one character.  [skip] counts the characters of the
    current match that are still to be passed over. *)
Fixpoint replace_from (match_at : string -> option nat) (rep : string)
         (skip : nat) (s : string) : string :=
  match s with
  | EmptyString => EmptyString
  | String c s' =>
      match skip with
      | S k => replace_from match_at rep k s'
      | O =>
          match match_at s with
          | Some (S n) => rep ++ replace_from match_at rep n s'
          | _ => String c (replace_from match_at rep O s')
          end
      end
  end.

Definition replace (match_at : string -> option nat) (s rep : string) : string :=
  replace_from match_at rep O s.

End Regex.

(** [compiler_path.replace(clang_compiler_regex, rep)] *)
Definition replace_clang_compiler_regex (s rep : string) : string :=
  Regex.replace Regex.clang_match s rep.

(** [compiler_path.replace(gcc_compiler_regex, rep)] *)
Definition replace_gcc_compiler_regex (s rep : string) : string :=
  Regex.replace Regex.gcc_match s rep.


(** ** Data model *)

(** [ExecutableTarget] of [@cmt/api]; its properties [name] and [path]
    are prefixed here, [name] being also a property of the
    configuration. *)
Record ExecutableTarget := {
  target_name : string;
  target_path : string;
}.

(** An entry of the CMake cache; only string-valued entries (compiler and
    linker paths) are read here. *)
Record CacheEntry := {
  key : string;
  value : string;
}.

(** [enum MIModes]; its members are the strings ['lldb'] and ['gdb'],
    which are also the two members of [DebuggerMIMode]. *)
Inductive MIModes := lldb | gdb.

Definition MIModes_value (m : MIModes) : string :=
  match m with
  | lldb => "lldb"
  | gdb => "gdb"
  end.

Global Instance MIModes_eq_dec : EqDecision MIModes.
Proof. solve_decision. Defined.

Record SetupCommand := {
  text : option string;
  description : option string;
  ignoreFailures : option bool;
}.

(** [VSCodeDebugConfiguration].  The record lists the properties that the
    object literals of this module set; the remaining optional properties
    of [CppDebugConfiguration] are never assigned here.  An optional
    property that a literal leaves out is [None]. *)
Record VSCodeDebugConfiguration := {
  type : string;
  name : string;
  request : string;
  cwd : option string;
  args : option (list string);
  MIMode : option MIModes;
  miDebuggerPath : option string;
  setupCommands : option (list SetupCommand);
  program : string;
}.

(** ** The host *)

(** [vscode.Extension]: only its installation root is read. *)
Record Extension := {
  extensionPath : string;
}.

(** What the resolver reads from its environment.  The host does not
    change during one resolution. *)
Record Host := {
  (** [retc] of [proc.execute(command, args, null, {shell: true})];
      [None] is [null] *)
  proc_execute : string -> list string -> option Z;
  (** [fs.exists] of [./pr] *)
  fs_exists : string -> bool;
  (** [vscode.extensions.getExtension] *)
  getExtension : string -> option Extension;
  (** [process.platform] *)
  process_platform : string;
  (** Node's [path] module, which follows the host's conventions *)
  path_isAbsolute : string -> bool;
  path_dirname : string -> string;
  path_join : list string -> string;
  (** [localize(key, defaultMessage, ...args)] of [vscode-nls] *)
  localize : string -> string -> list string -> string;
}.

(** ** Effects

    The probes and the warnings are recorded, in the order in which they
    happen; reading the cache, the file system and the list of
    extensions leaves no trace. *)

Inductive Event :=
| Probe (debuggerPath : string)   (** [debuggerPath --version] was run *)
| Warning (message : string).     (** [log.warning(message)] *)

(** How a statement ends: it falls through with a value, executes
    [return], or throws. *)
Inductive Completion (R A : Type) :=
| Normal (a : A)
| Return (r : R)
| Throw (message : string).
Global Arguments Normal {R A} a.
Global Arguments Return {R A} r.
Global Arguments Throw {R A} message.

(** A statement of a function whose return type is [R]. *)
Record Stmt (R A : Type) := MkStmt {
  stmt_events : list Event;
  completion : Completion R A;
}.
Global Arguments MkStmt {R A} _ _.
Global Arguments stmt_events {R A} _.
Global Arguments completion {R A} _.

(** How a call of an async function settles. *)
Inductive Outcome (A : Type) :=
| Returned (a : A)
| Thrown (message : string).
Global Arguments Returned {A} a.
Global Arguments Thrown {A} message.

Record Async (A : Type) := MkAsync {
  events : list Event;
  outcome : Outcome A;
}.
Global Arguments MkAsync {A} _ _.
Global Arguments events {A} _.
Global Arguments outcome {A} _.

Global Instance Stmt_ret {R} : MRet (Stmt R) :=
  fun A a => MkStmt [] (Normal a).

Global Instance Stmt_bind {R} : MBind (Stmt R) :=
  fun A B f m =>
    match completion m with
    | Normal a =>
        MkStmt (stmt_events m ++ stmt_events (f a)) (completion (f a))
    | Return r => MkStmt (stmt_events m) (Return r)
    | Throw e => MkStmt (stmt_events m) (Throw e)
    end.

Definition return_ {R A} (r : R) : Stmt R A := MkStmt [] (Return r).
Definition throw {R A} (message : string) : Stmt R A := MkStmt [] (Throw message).
Definition skip {R} : Stmt R unit := mret ().

(** [await p] *)
Definition await {R A} (p : Async A) : Stmt R A :=
  MkStmt (events p)
         match outcome p with
         | Returned a => Normal a
         | Thrown e => Throw e
         end.

(** The body of an async function.  A body of type [Stmt R Empty_set]
    cannot fall off its end. *)
Definition function_ {R} (body : Stmt R Empty_set) : Async R :=
  MkAsync (stmt_events body)
          match completion body with
          | Normal a => match a with end
          | Return r => Returned r
          | Throw e => Thrown e
          end.

Definition log_warning {R} (message : string) : Stmt R unit :=
  MkStmt [Warning message] (Normal ()).

(** Truthiness of a string: every string but the empty one. *)
Definition truthy (s : string) : bool := negb (String.eqb s "").

(** ** The program *)

Section Debugger.

Variable host : Host.

(** [checkDebugger]: run [debuggerPath --version] through a shell;
    success is exit code [0]. *)
Definition checkDebugger (debuggerPath : string) : Async bool :=
  let res := proc_execute host debuggerPath ["--version"] in
  MkAsync [Probe debuggerPath] (Returned (bool_decide (res = Some 0))).

Definition createGDBDebugConfiguration (debuggerPath : string)
           (target : ExecutableTarget) : Async VSCodeDebugConfiguration :=
  function_ (
    ok ← await (checkDebugger debuggerPath);
    debuggerPath ←
      (if negb ok then
         let debuggerPath := "gdb" in
         ok ← await (checkDebugger debuggerPath);
         (if negb ok then
            throw (localize host "gdb.not.found"
                     "Unable to find GDB in default search path and {0}."
                     [debuggerPath])
          else skip);;
         mret debuggerPath
       else mret debuggerPath);
    return_ {|
      type := "cppdbg";
      name := "Debug " ++ target_name target;
      request := "launch";
      cwd := Some (path_dirname host (target_path target));
      args := Some [];
      MIMode := Some gdb;
      miDebuggerPath := Some debuggerPath;
      setupCommands := Some [
        {| description := Some (localize host "enable.pretty.printing"
                                  "Enable pretty-printing for gdb" []);
           text := Some "-enable-pretty-printing";
           ignoreFailures := Some true |}
      ];
      program := target_path target
    |}).

Definition createLLDBDebugConfiguration (debuggerPath : string)
           (target : ExecutableTarget) : Async VSCodeDebugConfiguration :=
  function_ (
    ok ← await (checkDebugger debuggerPath);
    (if negb ok then
       throw (localize host "gdb.not.found"
                "Unable to find GDB in default search path and {0}."
                [debuggerPath])
     else skip);;
    return_ {|
      type := "cppdbg";
      name := "Debug " ++ target_name target;
      request := "launch";
      cwd := Some (path_dirname host (target_path target));
      args := Some [];
      MIMode := Some lldb;
      miDebuggerPath := Some debuggerPath;
      setupCommands := None;
      program := target_path target
    |}).

Definition createMSVCDebugConfiguration (target : ExecutableTarget)
  : VSCodeDebugConfiguration :=
  {|
    type := "cppvsdbg";
    name := "Debug " ++ target_name target;
    request := "launch";
    cwd := Some (path_dirname host (target_path target));
    args := Some [];
    MIMode := None;
    miDebuggerPath := None;
    setupCommands := None;
    program := target_path target
  |}.

(** An entry of [DebuggerGenerators]. *)
Record DebuggerGenerator := {
  miMode : MIModes;
  createConfig : string -> ExecutableTarget -> Async VSCodeDebugConfiguration;
}.

Definition DEBUG_GEN (mode : MIModes) : DebuggerGenerator :=
  match mode with
  | gdb => {| miMode := gdb; createConfig := createGDBDebugConfiguration |}
  | lldb => {| miMode := lldb; createConfig := createLLDBDebugConfiguration |}
  end.

(** The loop of [searchForCompilerPathInCache] over the languages that
    are left. *)
Fixpoint searchLanguages (cache : gmap string CacheEntry)
         (languages : list string) : option string :=
  match languages with
  | [] => None
  | lang :: rest =>
      match cache !! ("CMAKE_" ++ lang ++ "_COMPILER") with
      | None => searchLanguages cache rest
      | Some entry => Some (value entry)
      end
  end.

Definition searchForCompilerPathInCache (cache : gmap string CacheEntry)
  : option string :=
  let languages := ["CXX"; "C"; "CUDA"] in
  searchLanguages cache languages.

Definition getDebugConfigurationFromCache
           (cache : gmap string CacheEntry) (target : ExecutableTarget)
           (platform : string) (modeOverride : option MIModes)
           (debuggerPathOverride : option string)
  : Async (option VSCodeDebugConfiguration) :=
  function_ (
    let entry := cache !! "CMAKE_LINKER" in
    match entry with
    | Some entry =>
        let linker := value entry in
        let is_msvc_linker :=
          JsString.endsWith linker "link.exe"
          || JsString.endsWith linker "ld.lld.exe" in
        if is_msvc_linker
        then return_ (Some (createMSVCDebugConfiguration target))
        else skip
    | None => skip
    end;;

    let debugger_name :=
      match modeOverride with
      | Some mode => mode
      | None => if String.eqb platform "darwin" then lldb else gdb
      end in
    let description := DEBUG_GEN debugger_name in

    match debuggerPathOverride with
    | Some debuggerPathOverride =>
        if truthy debuggerPathOverride then
          (if path_isAbsolute host debuggerPathOverride
              && fs_exists host debuggerPathOverride
           then
             config ← await (createConfig description debuggerPathOverride target);
             return_ (Some config)
           else skip);;
          log_warning
            (localize host "invalid.miDebuggerPath.override"
               "'{0}' in '{1}' must be an absolute path to a debugger (variable expansion is not currently supported). Got: '{2}'"
               ["miDebuggerPath"; "cmake.debugConfig"; debuggerPathOverride])
        else skip
    | None => skip
    end;;

    compiler_path ←
      match searchForCompilerPathInCache cache with
      | None =>
          throw (localize host "no.compiler.found.in.cache"
                   "No compiler found in cache file." [])
      | Some compiler_path => mret compiler_path
      end;

    (if JsString.endsWith compiler_path "cl.exe"
     then return_ (Some (createMSVCDebugConfiguration target))
     else skip);;

    (* 1. LLDB-MI *)
    let mi_debugger_path :=
      replace_clang_compiler_regex compiler_path "lldb-mi" in
    (if bool_decide (modeOverride ≠ Some gdb)
        && bool_decide (JsString.search mi_debugger_path "lldb-mi" ≠ -1)
     then
       let cpptoolsExtension := getExtension host "ms-vscode.cpptools" in
       let cpptoolsDebuggerPath :=
         match cpptoolsExtension with
         | Some ext =>
             Some (path_join host [extensionPath ext; "debugAdapters";
                                   "lldb-mi"; "bin"; "lldb-mi"])
         | None => None
         end in
       (* 1a. lldb-mi in the compiler path *)
       ok ← await (checkDebugger mi_debugger_path);
       (if ok : bool then
          config ← await (createLLDBDebugConfiguration mi_debugger_path target);
          return_ (Some config)
        else skip);;
       (* 1b. lldb-mi installed by CppTools *)
       match cpptoolsDebuggerPath with
       | Some cpptoolsDebuggerPath =>
           if truthy cpptoolsDebuggerPath then
             ok ← await (checkDebugger cpptoolsDebuggerPath);
             if ok : bool then
               config ← await (createLLDBDebugConfiguration cpptoolsDebuggerPath target);
               return_ (Some config)
             else skip
           else skip
       | None => skip
       end
     else skip);;

    (* 2. gdb in the compiler path *)
    let mi_debugger_path :=
      replace_clang_compiler_regex compiler_path "gdb" in
    (if bool_decide (modeOverride ≠ Some lldb)
        && bool_decide (JsString.search mi_debugger_path "gdb" ≠ -1)
     then
       ok ← await (checkDebugger mi_debugger_path);
       if ok : bool then
         config ← await (createGDBDebugConfiguration mi_debugger_path target);
         return_ (Some config)
       else skip
     else skip);;

    (* 3. lldb in the compiler path *)
    let mi_debugger_path :=
      replace_clang_compiler_regex compiler_path "lldb" in
    (if bool_decide (modeOverride ≠ Some gdb)
        && bool_decide (JsString.search mi_debugger_path "lldb" ≠ -1)
     then
       ok ← await (checkDebugger mi_debugger_path);
       if ok : bool then
         config ← await (createLLDBDebugConfiguration mi_debugger_path target);
         return_ (Some config)
       else skip
     else skip);;

    let gdb_debugger_path :=
      replace_gcc_compiler_regex compiler_path
        (MIModes_value (miMode description)) in
    let gdb_debugger_path :=
      if path_isAbsolute host gdb_debugger_path
         && negb (fs_exists host gdb_debugger_path)
      then
        let gdb_debugger_path :=
          path_join host [path_dirname host compiler_path;
                          MIModes_value (miMode description)] in
        if String.eqb (process_platform host) "win32"
        then gdb_debugger_path ++ ".exe"
        else gdb_debugger_path
      else gdb_debugger_path in
    (if bool_decide (JsString.search gdb_debugger_path
                       (MIModes_value (miMode description)) ≠ -1)
     then
       config ← await (createConfig description gdb_debugger_path target);
       return_ (Some config)
     else skip);;

    log_warning
      (localize host "unable.to.determine.debugger.for.compiler"
         "Unable to automatically determine debugger corresponding to compiler: {0}"
         [compiler_path]);;
    return_ None).

End Debugger.

(** ** Views of the resolver used to state its properties

    Each definition below names an expression or a stretch of
    [getDebugConfigurationFromCache]; [resolution_chain] at the end puts
    them together, and [getDebugConfigurationFromCache_chain] proves that
    the resolver computes exactly that. *)

(** [await checkDebugger(p)] answers [true]. *)
Definition probe_ok (host : Host) (p : string) : bool :=
  bool_decide (proc_execute host p ["--version"] = Some 0).

(** [is_msvc_linker], false when the cache has no [CMAKE_LINKER]. *)
Definition msvc_linker (cache : gmap string CacheEntry) : bool :=
  match cache !! "CMAKE_LINKER" with
  | Some entry =>
      JsString.endsWith (value entry) "link.exe"
      || JsString.endsWith (value entry) "ld.lld.exe"
  | None => false
  end.

(** [debugger_name] *)
Definition preferred_mode (platform : string) (modeOverride : option MIModes)
  : MIModes :=
  match modeOverride with
  | Some mode => mode
  | None => if String.eqb platform "darwin" then lldb else gdb
  end.

(** The override when the resolver accepts it: given, not empty,
    absolute and existing. *)
Definition accepted_override (host : Host) (debuggerPathOverride : option string)
  : option string :=
  match debuggerPathOverride with
  | Some p =>
      if truthy p && (path_isAbsolute host p && fs_exists host p)
      then Some p else None
  | None => None
  end.

(** The warning for an override that is given, not empty and refused. *)
Definition override_warning (host : Host) (debuggerPathOverride : option string)
  : list Event :=
  match debuggerPathOverride with
  | Some p =>
      if truthy p && negb (path_isAbsolute host p && fs_exists host p)
      then [Warning
              (localize host "invalid.miDebuggerPath.override"
                 "'{0}' in '{1}' must be an absolute path to a debugger (variable expansion is not currently supported). Got: '{2}'"
                 ["miDebuggerPath"; "cmake.debugConfig"; p])]
      else []
  | None => []
  end.

(** A debugger path that is still to be validated, with the family of
    the builder that receives it. *)
Record DebuggerCandidate := {
  candidate_path : string;
  candidate_family : MIModes;
}.

(** [s.search(new RegExp(p)) !== -1] *)
Definition contains (s p : string) : bool :=
  bool_decide (JsString.search s p ≠ -1).

(** [cpptoolsDebuggerPath], when it is defined and not empty. *)
Definition cpptools_lldb_mi (host : Host) : list DebuggerCandidate :=
  match getExtension host "ms-vscode.cpptools" with
  | Some ext =>
      let p := path_join host [extensionPath ext; "debugAdapters";
                               "lldb-mi"; "bin"; "lldb-mi"] in
      if truthy p then [{| candidate_path := p; candidate_family := lldb |}]
      else []
  | None => []
  end.

(** The candidates of steps 1 to 3, in the order in which the resolver
    probes them. *)
Definition derived_candidates (host : Host) (modeOverride : option MIModes)
           (compiler_path : string) : list DebuggerCandidate :=
  let lldb_mi := replace_clang_compiler_regex compiler_path "lldb-mi" in
  let gdb_path := replace_clang_compiler_regex compiler_path "gdb" in
  let lldb_path := replace_clang_compiler_regex compiler_path "lldb" in
  (if bool_decide (modeOverride ≠ Some gdb) && contains lldb_mi "lldb-mi"
   then {| candidate_path := lldb_mi; candidate_family := lldb |}
        :: cpptools_lldb_mi host
   else [])
  ++ (if bool_decide (modeOverride ≠ Some lldb) && contains gdb_path "gdb"
      then [{| candidate_path := gdb_path; candidate_family := gdb |}]
      else [])
  ++ (if bool_decide (modeOverride ≠ Some gdb) && contains lldb_path "lldb"
      then [{| candidate_path := lldb_path; candidate_family := lldb |}]
      else []).

(** [gdb_debugger_path] as it stands when the resolver tests it. *)
Definition generic_debugger_path (host : Host) (compiler_path : string)
           (mode : MIModes) : string :=
  let gdb_debugger_path :=
    replace_gcc_compiler_regex compiler_path (MIModes_value mode) in
  if path_isAbsolute host gdb_debugger_path
     && negb (fs_exists host gdb_debugger_path)
  then
    let gdb_debugger_path :=
      path_join host [path_dirname host compiler_path; MIModes_value mode] in
    if String.eqb (process_platform host) "win32"
    then gdb_debugger_path ++ ".exe"
    else gdb_debugger_path
  else gdb_debugger_path.

(** The events [pre] happened, then [r]. *)
Definition after {A} (pre : list Event) (r : Async A) : Async A :=
  MkAsync (pre ++ events r) (outcome r).

(** [return builder(...)] in a function that returns a configuration or
    [null]. *)
Definition returned_config (b : Async VSCodeDebugConfiguration)
  : Async (option VSCodeDebugConfiguration) :=
  MkAsync (events b)
          match outcome b with
          | Returned config => Returned (Some config)
          | Thrown e => Thrown e
          end.

(** Probe the candidates in order; the first one that answers is handed
    to the builder of its family; [otherwise] runs when none answers. *)
Fixpoint try_candidates (host : Host) (target : ExecutableTarget)
         (candidates : list DebuggerCandidate)
         (otherwise : Async (option VSCodeDebugConfiguration))
  : Async (option VSCodeDebugConfiguration) :=
  match candidates with
  | [] => otherwise
  | c :: rest =>
      after [Probe (candidate_path c)]
        (if probe_ok host (candidate_path c)
         then returned_config
                (createConfig (DEBUG_GEN host (candidate_family c))
                   (candidate_path c) target)
         else try_candidates host target rest otherwise)
  end.

(** Lines 219 to 233: the generic fallback. *)
Definition generic_fallback (host : Host) (target : ExecutableTarget)
           (compiler_path : string) (mode : MIModes)
  : Async (option VSCodeDebugConfiguration) :=
  let p := generic_debugger_path host compiler_path mode in
  if contains p (MIModes_value mode)
  then returned_config (createConfig (DEBUG_GEN host mode) p target)
  else MkAsync
         [Warning
            (localize host "unable.to.determine.debugger.for.compiler"
               "Unable to automatically determine debugger corresponding to compiler: {0}"
               [compiler_path])]
         (Returned None).

(** The whole resolver as a chain of decisions. *)
Definition resolution_chain (host : Host) (cache : gmap string CacheEntry)
           (target : ExecutableTarget) (platform : string)
           (modeOverride : option MIModes) (debuggerPathOverride : option string)
  : Async (option VSCodeDebugConfiguration) :=
  let mode := preferred_mode platform modeOverride in
  if msvc_linker cache
  then MkAsync [] (Returned (Some (createMSVCDebugConfiguration host target)))
  else
    match accepted_override host debuggerPathOverride with
    | Some p => returned_config (createConfig (DEBUG_GEN host mode) p target)
    | None =>
        after (override_warning host debuggerPathOverride)
          match searchForCompilerPathInCache cache with
          | None =>
              MkAsync [] (Thrown (localize host "no.compiler.found.in.cache"
                                    "No compiler found in cache file." []))
          | Some compiler_path =>
              if JsString.endsWith compiler_path "cl.exe"
              then MkAsync [] (Returned (Some (createMSVCDebugConfiguration host target)))
              else try_candidates host target
                     (derived_candidates host modeOverride compiler_path)
                     (generic_fallback host target compiler_path mode)
          end
    end.

(** The paths that were probed, in order. *)
Fixpoint probed (evs : list Event) : list string :=
  match evs with
  | [] => []
  | Probe p :: rest => p :: probed rest
  | Warning _ :: rest => probed rest
  end.

(** The warnings that were logged, in order. *)
Fixpoint warnings (evs : list Event) : list string :=
  match evs with
  | [] => []
  | Probe _ :: rest => warnings rest
  | Warning w :: rest => w :: warnings rest
  end.

(** [evs] happened before the statement [s]. *)
Definition emit {R A} (evs : list Event) (s : Stmt R A) : Stmt R A :=
  MkStmt (evs ++ stmt_events s) (completion s).

(** ** A POSIX host

    Node's [path.posix] and [localize] without a message bundle, to run
    the resolver on concrete inputs. *)

Module PosixPath.

Definition isAbsolute (p : string) : bool :=
  match p with
  | String "/"%char _ => true
  | _ => false
  end.

Fixpoint drop_while (f : ascii -> bool) (l : list ascii) : list ascii :=
  match l with
  | [] => []
  | c :: l' => if f c then drop_while f l' else l
  end.

Definition is_slash (c : ascii) : bool := Ascii.eqb c "/".

(** [dirname]: scanning from the end and never looking at index 0, skip
    the trailing slashes and the last component; the slash reached, at
    index [end], ends the directory. *)
Definition dirname (p : string) : string :=
  match String.list_ascii_of_string p with
  | [] => "."
  | c0 :: t =>
      let hasRoot := is_slash c0 in
      let r := drop_while (λ c, negb (is_slash c))
                 (drop_while is_slash (rev t)) in
      match r with
      | [] => if hasRoot then "/" else "."
      | _ :: _ =>
          let end_ := List.length r in
          if hasRoot && (end_ =? 1)%nat then "//"
          else String.string_of_list_ascii (take end_ (c0 :: t))
      end
  end.

(** The components of [p] between slashes. *)
Fixpoint split (cur : string) (p : string) : list string :=
  match p with
  | EmptyString => [cur]
  | String c p' =>
      if is_slash c then cur :: split "" p'
      else split (cur ++ String c "") p'
  end.

(** [normalizeString]: drop empty and ["."] components; [".."] removes
    the component before it, or is kept when there is none to remove
    and the path is relative.  [stack] is in reverse order. *)
Fixpoint normalizeSegments (allowAboveRoot : bool) (stack : list string)
         (segments : list string) : list string :=
  match segments with
  | [] => rev stack
  | seg :: rest =>
      if String.eqb seg "" || String.eqb seg "." then
        normalizeSegments allowAboveRoot stack rest
      else if String.eqb seg ".." then
        match stack with
        | top :: below =>
            if String.eqb top ".."
            then normalizeSegments allowAboveRoot
                   (if allowAboveRoot then ".." :: stack else stack) rest
            else normalizeSegments allowAboveRoot below rest
        | [] =>
            normalizeSegments allowAboveRoot
              (if allowAboveRoot then [".."] else []) rest
        end
      else normalizeSegments allowAboveRoot (seg :: stack) rest
  end.

Fixpoint join_with (sep : string) (l : list string) : string :=
  match l with
  | [] => ""
  | [s] => s
  | s :: rest => s ++ sep ++ join_with sep rest
  end.

Definition normalize (p : string) : string :=
  if String.eqb p "" then "."
  else
    let isAbs := isAbsolute p in
    let trailingSeparator := JsString.endsWith p "/" in
    let res := join_with "/" (normalizeSegments (negb isAbs) [] (split "" p)) in
    if String.eqb res "" then
      if isAbs then "/" else if trailingSeparator then "./" else "."
    else
      let res := if trailingSeparator then res ++ "/" else res in
      if isAbs then "/" ++ res else res.

Definition join (parts : list string) : string :=
  let joined := join_with "/" (filter (λ s, truthy s = true) parts) in
  if String.eqb joined "" then "." else normalize joined.

End PosixPath.

Module Nls.

Definition digit (c : ascii) : option nat :=
  let n := nat_of_ascii c in
  if (48 <=? n)%nat && (n <=? 57)%nat then Some (n - 48)%nat else None.

(** Replace every placeholder [{0}] to [{9}] by the argument of that
    index, or by [undefined] when there is no such argument. *)
Fixpoint replace_placeholders (message : string) (args : list string)
  : string :=
  match message with
  | String "{"%char (String d (String "}"%char rest) as tail) =>
      match digit d with
      | Some i =>
          default "undefined" (args !! i) ++ replace_placeholders rest args
      | None => String "{" (replace_placeholders tail args)
      end
  | String c rest => String c (replace_placeholders rest args)
  | EmptyString => EmptyString
  end.

(** [format] of [vscode-nls]. *)
Definition format (message : string) (args : list string) : string :=
  match args with
  | [] => message
  | _ :: _ => replace_placeholders message args
  end.

(** [localize] when no message bundle is loaded: the default message,
    formatted. *)
Definition localize (key message : string) (args : list string) : string :=
  format message args.

End Nls.

(** A POSIX host on which the commands [working] exit with code [0] under
    [--version] (and every other command with [127]), the paths
    [existing] exist, and C/C++ tools are installed at [cpptools] if at
    all. *)
Definition posix_host (working existing : list string)
           (cpptools : option string) : Host := {|
  proc_execute command _ :=
    if bool_decide (command ∈ working) then Some 0 else Some 127;
  fs_exists p := bool_decide (p ∈ existing);
  getExtension id :=
    if String.eqb id "ms-vscode.cpptools"
    then (λ root, {| extensionPath := root |}) <$> cpptools
    else None;
  process_platform := "linux";
  path_isAbsolute := PosixPath.isAbsolute;
  path_dirname := PosixPath.dirname;
  path_join := PosixPath.join;
  localize := Nls.localize;
|}.

Definition entry (k v : string) : CacheEntry := {| key := k; value := v |}.

(** A cache with the given compiler as [CMAKE_CXX_COMPILER] only. *)
Definition cxx_cache (compiler : string) : gmap string CacheEntry :=
  {[ "CMAKE_CXX_COMPILER" := entry "CMAKE_CXX_COMPILER" compiler ]}.

Definition hello : ExecutableTarget :=
  {| target_name := "hello"; target_path := "/home/dev/build/hello" |}.

(** The three families of configurations. *)
Inductive DebuggerFamily := MSVC | GDB | LLDB.

(** Building a configuration of a given family: the builder of
    [debugger.ts] for that family.  [createMSVCDebugConfiguration] is
    synchronous and takes no debugger path. *)
Definition build (host : Host) (family : DebuggerFamily) (path : string)
           (target : ExecutableTarget) : Async VSCodeDebugConfiguration :=
  match family with
  | MSVC => MkAsync [] (Returned (createMSVCDebugConfiguration host target))
  | GDB => createGDBDebugConfiguration host path target
  | LLDB => createLLDBDebugConfiguration host path target
  end.

(** The call settled with a value. *)
Definition returns {A} (r : Async A) : bool :=
  match outcome r with
  | Returned _ => true
  | Thrown _ => false
  end.

(** The object literal that [createGDBDebugConfiguration] returns, for
    the debugger path that it settled on. *)
Definition gdb_configuration (host : Host) (debuggerPath : string)
           (target : ExecutableTarget) : VSCodeDebugConfiguration := {|
  type := "cppdbg";
  name := "Debug " ++ target_name target;
  request := "launch";
  cwd := Some (path_dirname host (target_path target));
  args := Some [];
  MIMode := Some gdb;
  miDebuggerPath := Some debuggerPath;
  setupCommands := Some [
    {| description := Some (localize host "enable.pretty.printing"
                              "Enable pretty-printing for gdb" []);
       text := Some "-enable-pretty-printing";
       ignoreFailures := Some true |}
  ];
  program := target_path target
|}.

(** The object literal that [createLLDBDebugConfiguration] returns. *)
Definition lldb_configuration (host : Host) (debuggerPath : string)
           (target : ExecutableTarget) : VSCodeDebugConfiguration := {|
  type := "cppdbg";
  name := "Debug " ++ target_name target;
  request := "launch";
  cwd := Some (path_dirname host (target_path target));
  args := Some [];
  MIMode := Some lldb;
  miDebuggerPath := Some debuggerPath;
  setupCommands := None;
  program := target_path target
|}.

(** The message of the error that both builders throw. *)
Definition gdb_not_found (host : Host) (debuggerPath : string) : string :=
  localize host "gdb.not.found"
    "Unable to find GDB in default search path and {0}." [debuggerPath].

(** The bare command that the builder of a mode falls back to, if any. *)
Definition bare_command (mode : MIModes) : list string :=
  match mode with
  | gdb => ["gdb"]
  | lldb => []
  end.

(** The paths that a resolution with [modeOverride = mode] may probe:
    the override, the candidates of that mode, the generic path for that
    mode and, for gdb, the bare command. *)
Definition family_paths (host : Host) (cache : gmap string CacheEntry)
           (mode : MIModes) (debuggerPathOverride : option string)
  : list string :=
  match debuggerPathOverride with
  | Some p => [p]
  | None => []
  end
  ++ match searchForCompilerPathInCache cache with
     | Some compiler_path =>
         map candidate_path (derived_candidates host (Some mode) compiler_path)
         ++ [generic_debugger_path host compiler_path mode]
     | None => []
     end
  ++ bare_command mode.

(** What a mode override guarantees about a returned value: a
    configuration, if any, is of that mode or is the MSVC one. *)
Definition of_family (host : Host) (target : ExecutableTarget) (mode : MIModes)
           (result : option VSCodeDebugConfiguration) : Prop :=
  match result with
  | Some config =>
      MIMode config = Some mode
      ∨ config = createMSVCDebugConfiguration host target
  | None => True
  end.

(** ** Concrete inputs *)

(** A cache of a clang toolchain that links with the MSVC linker. *)
Definition msvc_cache : gmap string CacheEntry :=
  <[ "CMAKE_LINKER" := entry "CMAKE_LINKER" "C:/VS/VC/bin/Hostx64/x64/link.exe" ]>
    (cxx_cache "C:/LLVM/bin/clang++.exe").

(** A cache with a C++ and a C compiler. *)
Definition gxx_gcc_cache : gmap string CacheEntry :=
  <[ "CMAKE_C_COMPILER" := entry "CMAKE_C_COMPILER" "/usr/bin/gcc" ]>
    (cxx_cache "/usr/bin/g++").

(** Both [lldb-mi] and [gdb] are installed next to the compiler. *)
Definition host_lldb_mi_and_gdb : Host :=
  posix_host ["/usr/bin/lldb-mi"; "/usr/bin/gdb"]
             ["/usr/bin/clang++"; "/usr/bin/lldb-mi"; "/usr/bin/gdb"] None.

(** [lldb] is installed and on the search path; there is no gdb. *)
Definition host_lldb_only : Host :=
  posix_host ["/usr/bin/lldb"; "lldb"]
             ["/usr/bin/g++"; "/usr/bin/clang"; "/usr/bin/lldb"] None.

(** No debugger at all. *)
Definition host_no_debugger : Host :=
  posix_host [] ["/usr/bin/clang"; "/usr/bin/gcc"] None.

(** [gdb] is on the search path only; [/opt/tools/readme.txt] exists and
    is not a program. *)
Definition host_bare_gdb : Host :=
  posix_host ["gdb"] ["/usr/bin/gcc"; "/opt/tools/readme.txt"] None.

(** * Properties *)

(** ** The string primitives mean what their names say *)

Section StringFacts.
Import JsString.

Lemma length_append (s t : string) :
  length (s ++ t) = (length s + length t)%nat.
Proof.
  unfold length. induction s as [|c s IH]; simpl; [done|]. by rewrite IH.
Qed.

Lemma drop_append (s t : string) : drop (length s) (s ++ t) = t.
Proof. by induction s as [|c s IH]. Qed.

Lemma drop_split n (s : string) : ∃ pre, s = pre ++ drop n s.
Proof.
  revert s. induction n as [|n IH]; intros s.
  - by exists "".
  - destruct s as [|c s]; [by exists ""|].
    destruct (IH s) as [pre Hpre]. exists (String c pre).
    change (String c s = String c (pre ++ drop n s)). by f_equal.
Qed.

Lemma length_drop n (s : string) : length (drop n s) = (length s - n)%nat.
Proof.
  unfold length.
  revert s. induction n as [|n IH]; intros [|c s]; simpl; by try lia.
Qed.

Lemma startsWith_spec (s p : string) :
  startsWith s p = true ↔ ∃ post, s = p ++ post.
Proof.
  revert s. induction p as [|a p IH]; intros s; simpl.
  - split; [intros _; by exists s|by destruct s].
  - destruct s as [|b s]; simpl.
    + split; [done|]. by intros [post ?].
    + rewrite andb_true_iff, Ascii.eqb_eq, IH. split.
      * intros [-> [post ->]]. by exists post.
      * intros [post [= -> ->]]. split; [done|]. by exists post.
Qed.

Lemma endsWith_spec (s p : string) :
  endsWith s p = true ↔ ∃ pre, s = pre ++ p.
Proof.
  unfold endsWith. rewrite andb_true_iff, Nat.leb_le, String.eqb_eq. split.
  - intros [_ Hp]. destruct (drop_split (length s - length p) s) as [pre Hpre].
    exists pre. by rewrite Hp in Hpre.
  - intros [pre ->]. rewrite length_append. split; [lia|].
    replace (length pre + length p - length p)%nat with (length pre) by lia.
    apply drop_append.
Qed.

Lemma indexFrom_spec i (p s : string) :
  0 ≤ i →
  indexFrom i p s ≠ -1 ↔ ∃ pre post, s = pre ++ p ++ post.
Proof.
  revert i. induction s as [|c s IH]; intros i Hi; cbn [indexFrom].
  - destruct (startsWith "" p) eqn:Hp.
    + apply startsWith_spec in Hp as [post Hpost].
      split; [|lia]. intros _. by exists "", post.
    + split; [done|]. intros ([|? pre] & post & Hs); [|done].
      simpl in Hs. assert (startsWith "" p = true); [|congruence].
      apply startsWith_spec. by exists post.
  - destruct (startsWith (String c s) p) eqn:Hp.
    + apply startsWith_spec in Hp as [post Hpost].
      split; [|lia]. intros _. by exists "", post.
    + rewrite (IH (i + 1)) by lia. split.
      * intros (pre & post & ->). by exists (String c pre), post.
      * intros ([|c' pre] & post & Hs).
        -- simpl in Hs. assert (startsWith (String c s) p = true); [|congruence].
           apply startsWith_spec. by exists post.
        -- injection Hs as -> ->. by exists pre, post.
Qed.

Lemma contains_spec (s p : string) :
  contains s p = true ↔ ∃ pre post, s = pre ++ p ++ post.
Proof.
  unfold contains, search. rewrite bool_decide_eq_true.
  by apply indexFrom_spec.
Qed.

Lemma startsWith_ci_length (s p : string) :
  startsWith_ci s p = true → (length p ≤ length s)%nat.
Proof.
  unfold length. revert s. induction p as [|a p IH]; intros [|b s]; simpl;
    try done; try lia.
  intros [_ Hp%IH]%andb_true_iff. lia.
Qed.

(** More fuel than the length of the string changes nothing. *)
Lemma clang_match_at_fuel f1 f2 (s : string) :
  (length s ≤ f1)%nat → (length s ≤ f2)%nat →
  Regex.clang_match_at f1 s = Regex.clang_match_at f2 s.
Proof.
  revert f2 s. induction f1 as [|f1 IH]; intros [|f2] s H1 H2;
    cbn [Regex.clang_match_at]; try done.
  - destruct (startsWith_ci s "clang") eqn:E; [|done].
    apply startsWith_ci_length in E. unfold length in *. simpl in E. lia.
  - destruct (startsWith_ci s "clang") eqn:E; [|done].
    apply startsWith_ci_length in E. unfold length in *. simpl in E. lia.
  - destruct (startsWith_ci s "clang") eqn:E; [|done].
    apply startsWith_ci_length in E.
    assert (Hk : ∀ k, (length (drop k (drop 5 s)) ≤ f1)%nat
                      ∧ (length (drop k (drop 5 s)) ≤ f2)%nat).
    { intros k. rewrite !length_drop. unfold length in *. simpl in E. lia. }
    induction (plus_run 2 (drop 5 s)) as [|k IHk].
    + destruct (Hk O) as [Hk1 Hk2]. by rewrite (IH f2 _ Hk1 Hk2).
    + destruct (Hk (S k)) as [Hk1 Hk2]. rewrite (IH f2 _ Hk1 Hk2).
      destruct (Regex.clang_match_at f2 _); [done|].
      destruct (negb _); [done|]. apply IHk.
Qed.

End StringFacts.

(** ** The regular expressions and the path model on examples *)

Example clang_pp_to_lldb_mi :
  replace_clang_compiler_regex "/usr/bin/clang++" "lldb-mi" = "/usr/bin/lldb-mi".
Proof. reflexivity. Qed.

Example clang_cl_is_kept :
  replace_clang_compiler_regex "C:\LLVM\bin\clang-cl.exe" "gdb"
  = "C:\LLVM\bin\clang-cl.exe".
Proof. reflexivity. Qed.

Example clang_pp_cl_gives_back_a_plus :
  replace_clang_compiler_regex "clang++-cl" "gdb" = "gdb+-cl".
Proof. reflexivity. Qed.

Example clang_everywhere_ignoring_case :
  replace_clang_compiler_regex "/opt/Clang/bin/CLANG+clang-12" "lldb"
  = "/opt/lldb/bin/lldb-12".
Proof. reflexivity. Qed.

Example gcc_with_suffix :
  replace_gcc_compiler_regex "/usr/bin/x86_64-linux-gnu-gcc-9" "gdb"
  = "/usr/bin/x86_64-linux-gnu-gdb-9".
Proof. reflexivity. Qed.

Example gcc_only_in_last_component :
  replace_gcc_compiler_regex "/opt/gcc/bin/c++" "lldb" = "/opt/gcc/bin/lldb".
Proof. reflexivity. Qed.

Example gpp_inside_clang_pp :
  replace_gcc_compiler_regex "/usr/bin/clang++" "gdb" = "/usr/bin/clangdb".
Proof. reflexivity. Qed.

Example posix_dirname :
  map PosixPath.dirname ["/usr/bin/gcc"; "/gcc"; "//a"; "a/b/"; "gcc"; "/usr//gcc"]
  = ["/usr/bin"; "/"; "//"; "a"; "."; "/usr/"].
Proof. reflexivity. Qed.

Example posix_join :
  map PosixPath.join [["/usr/bin"; "gdb"]; ["."; "gdb"]; ["a/../.."; "b/"];
                      ["/.."; "x"]; [""; ""]]
  = ["/usr/bin/gdb"; "gdb"; "../b/"; "/x"; "."].
Proof. reflexivity. Qed.

(** ** Laws of the statement monad *)

Section StmtLaws.
Context {R : Type}.

Lemma bind_ret {A B} (a : A) (k : A -> Stmt R B) : mret a ≫= k = k a.
Proof. unfold mbind, Stmt_bind; simpl. by destruct (k a). Qed.

Lemma bind_skip {B} (k : unit -> Stmt R B) : skip ≫= k = k ().
Proof. apply bind_ret. Qed.

Lemma bind_return {A B} (r : R) (k : A -> Stmt R B) :
  return_ r ≫= k = return_ r.
Proof. reflexivity. Qed.

Lemma bind_throw {A B} (e : string) (k : A -> Stmt R B) :
  throw e ≫= k = throw e.
Proof. reflexivity. Qed.

Lemma bind_emit {A B} evs (s : Stmt R A) (k : A -> Stmt R B) :
  emit evs s ≫= k = emit evs (s ≫= k).
Proof.
  unfold emit, mbind, Stmt_bind; simpl.
  destruct (completion s); simpl; by rewrite ?app_assoc.
Qed.

Lemma bind_await_return {A B C} (b : Async A) (g : A -> R)
      (k : B -> Stmt R C) :
  (await b ≫= (λ a, return_ (g a))) ≫= k = await b ≫= (λ a, return_ (g a)).
Proof.
  unfold await, mbind, Stmt_bind; simpl. by destruct (outcome b).
Qed.

Lemma bind_log_warning {B} w (k : unit -> Stmt R B) :
  log_warning w ≫= k = emit [Warning w] (k ()).
Proof. reflexivity. Qed.

Lemma await_checkDebugger host p :
  @await R bool (checkDebugger host p)
  = emit [Probe p] (mret (probe_ok host p)).
Proof. reflexivity. Qed.

Lemma function_emit evs (s : Stmt R Empty_set) :
  function_ (emit evs s) = after evs (function_ s).
Proof. reflexivity. Qed.

Lemma function_return (r : R) :
  function_ (return_ r) = MkAsync [] (Returned r).
Proof. reflexivity. Qed.

Lemma function_throw e : @function_ R (throw e) = MkAsync [] (Thrown e).
Proof. reflexivity. Qed.

End StmtLaws.

Lemma function_await_return (b : Async VSCodeDebugConfiguration) :
  function_ (await b ≫= (λ config, return_ (Some config))) = returned_config b.
Proof.
  unfold function_, returned_config, await, mbind, Stmt_bind; simpl.
  destruct (outcome b); simpl; by rewrite ?app_nil_r.
Qed.

Lemma after_nil {A} (r : Async A) : after [] r = r.
Proof. by destruct r. Qed.

Lemma after_after {A} evs evs' (r : Async A) :
  after evs (after evs' r) = after (evs ++ evs') r.
Proof. unfold after; simpl. by rewrite app_assoc. Qed.

(** Statements at the head of a function body. *)
Ltac stmt_top :=
  repeat (progress (rewrite ?bind_skip, ?bind_ret, ?bind_return, ?bind_throw,
            ?bind_log_warning, ?bind_emit, ?function_emit, ?function_return,
            ?function_throw, ?after_nil); cbv beta).

(** The same, and a probe or a builder call followed by [return]. *)
Ltac stmt :=
  repeat (progress (rewrite ?bind_await_return, ?bind_skip, ?bind_ret,
            ?bind_return, ?bind_throw, ?bind_log_warning,
            ?await_checkDebugger, ?bind_emit, ?function_emit,
            ?function_return, ?function_throw, ?function_await_return,
            ?after_nil); cbv beta).

(** ** The builders *)

Lemma createGDBDebugConfiguration_eq host debuggerPath target :
  createGDBDebugConfiguration host debuggerPath target
  = after [Probe debuggerPath]
      (if probe_ok host debuggerPath
       then MkAsync [] (Returned (gdb_configuration host debuggerPath target))
       else after [Probe "gdb"]
              (if probe_ok host "gdb"
               then MkAsync [] (Returned (gdb_configuration host "gdb" target))
               else MkAsync [] (Thrown (gdb_not_found host "gdb")))).
Proof.
  unfold createGDBDebugConfiguration. stmt.
  destruct (probe_ok host debuggerPath); cbn [negb]; stmt; [done|].
  destruct (probe_ok host "gdb"); cbn [negb]; by stmt.
Qed.

Lemma createLLDBDebugConfiguration_eq host debuggerPath target :
  createLLDBDebugConfiguration host debuggerPath target
  = after [Probe debuggerPath]
      (if probe_ok host debuggerPath
       then MkAsync [] (Returned (lldb_configuration host debuggerPath target))
       else MkAsync [] (Thrown (gdb_not_found host debuggerPath))).
Proof.
  unfold createLLDBDebugConfiguration. stmt.
  destruct (probe_ok host debuggerPath); cbn [negb]; by stmt.
Qed.

Lemma miMode_DEBUG_GEN host mode : miMode (DEBUG_GEN host mode) = mode.
Proof. by destruct mode. Qed.

(** ** The resolver is the resolution chain *)

Lemma try_candidates_app host target l1 l2 otherwise :
  try_candidates host target (l1 ++ l2) otherwise
  = try_candidates host target l1 (try_candidates host target l2 otherwise).
Proof. induction l1 as [|c l1 IH]; simpl; [done|]. by rewrite IH. Qed.

Section Steps.
Variables (host : Host) (target : ExecutableTarget).
Variable K : unit -> Stmt (option VSCodeDebugConfiguration) Empty_set.

(** Step 2. *)
Lemma step_gdb (c : bool) p :
  function_
    ((if c then
        ok ← await (checkDebugger host p);
        if ok : bool then
          config ← await (createGDBDebugConfiguration host p target);
          return_ (Some config)
        else skip
      else skip) ≫= K)
  = try_candidates host target
      (if c then [{| candidate_path := p; candidate_family := gdb |}] else [])
      (function_ (K ())).
Proof.
  destruct c; stmt; [|done].
  cbn [try_candidates candidate_path candidate_family].
  destruct (probe_ok host p); by stmt.
Qed.

(** Step 3. *)
Lemma step_lldb (c : bool) p :
  function_
    ((if c then
        ok ← await (checkDebugger host p);
        if ok : bool then
          config ← await (createLLDBDebugConfiguration host p target);
          return_ (Some config)
        else skip
      else skip) ≫= K)
  = try_candidates host target
      (if c then [{| candidate_path := p; candidate_family := lldb |}] else [])
      (function_ (K ())).
Proof.
  destruct c; stmt; [|done].
  cbn [try_candidates candidate_path candidate_family].
  destruct (probe_ok host p); by stmt.
Qed.

(** Steps 1a and 1b. *)
Lemma step_lldb_mi (c : bool) p :
  function_
    ((if c then
        ok ← await (checkDebugger host p);
        (if ok : bool then
           config ← await (createLLDBDebugConfiguration host p target);
           return_ (Some config)
         else skip);;
        match
          match getExtension host "ms-vscode.cpptools" with
          | Some ext =>
              Some (path_join host [extensionPath ext; "debugAdapters";
                                    "lldb-mi"; "bin"; "lldb-mi"])
          | None => None
          end
        with
        | Some cpptoolsDebuggerPath =>
            if truthy cpptoolsDebuggerPath then
              ok ← await (checkDebugger host cpptoolsDebuggerPath);
              if ok : bool then
                config ← await (createLLDBDebugConfiguration host
                                  cpptoolsDebuggerPath target);
                return_ (Some config)
              else skip
            else skip
        | None => skip
        end
      else skip) ≫= K)
  = try_candidates host target
      (if c
       then {| candidate_path := p; candidate_family := lldb |}
            :: cpptools_lldb_mi host
       else [])
      (function_ (K ())).
Proof.
  destruct c; stmt; [|done].
  cbn [try_candidates candidate_path candidate_family].
  destruct (probe_ok host p); stmt; [done|].
  unfold cpptools_lldb_mi.
  destruct (getExtension host "ms-vscode.cpptools") as [ext|]; stmt; [|done].
  destruct (truthy _); stmt; [|done].
  cbn [try_candidates candidate_path candidate_family].
  destruct (probe_ok host _); by stmt.
Qed.

(** The generic fallback and the end of the function. *)
Lemma step_generic_fallback compiler_path mode :
  function_
    ((if bool_decide
           (JsString.search (generic_debugger_path host compiler_path mode)
              (MIModes_value mode) ≠ -1)
      then
        config ← await (createConfig (DEBUG_GEN host mode)
                          (generic_debugger_path host compiler_path mode)
                          target);
        return_ (Some config)
      else skip);;
     log_warning
       (localize host "unable.to.determine.debugger.for.compiler"
          "Unable to automatically determine debugger corresponding to compiler: {0}"
          [compiler_path]);;
     return_ None)
  = generic_fallback host target compiler_path mode.
Proof.
  unfold generic_fallback, contains. cbv zeta.
  destruct (bool_decide _); by stmt.
Qed.

End Steps.

(** The resolver computes the resolution chain, on every input. *)
Lemma getDebugConfigurationFromCache_chain
      host cache target platform modeOverride debuggerPathOverride :
  getDebugConfigurationFromCache host cache target platform
    modeOverride debuggerPathOverride
  = resolution_chain host cache target platform
      modeOverride debuggerPathOverride.
Proof.
  unfold getDebugConfigurationFromCache, resolution_chain, msvc_linker,
    accepted_override, override_warning.
  cbv zeta.
  destruct (cache !! "CMAKE_LINKER") as [linker|];
    [destruct (_ || _); [by stmt|]|];
    (stmt_top;
     destruct debuggerPathOverride as [p|];
       [destruct (truthy p); cbn [andb negb];
        [destruct (_ && _); cbn [negb];
         [by rewrite !bind_await_return, function_await_return|]|]|];
     stmt_top;
     (destruct (searchForCompilerPathInCache cache) as [cp|]; [|by stmt_top]);
     stmt_top;
     (destruct (JsString.endsWith cp "cl.exe"); [by stmt_top|]);
     stmt_top;
     rewrite step_lldb_mi, step_gdb, step_lldb, miMode_DEBUG_GEN;
     unfold derived_candidates; cbv zeta;
     rewrite !try_candidates_app;
     rewrite <- step_generic_fallback;
     reflexivity).
Qed.

(** ** Probing candidates *)

Lemma try_candidates_all_fail host target candidates otherwise :
  (∀ c, c ∈ candidates → probe_ok host (candidate_path c) = false) →
  try_candidates host target candidates otherwise
  = after (map (λ c, Probe (candidate_path c)) candidates) otherwise.
Proof.
  induction candidates as [|c rest IH]; intros Hfail; simpl.
  - by rewrite after_nil.
  - rewrite (Hfail c) by left.
    rewrite IH by (intros c' Hc'; apply Hfail; by right).
    by rewrite after_after.
Qed.

Lemma probed_app evs evs' :
  probed (evs ++ evs') = (probed evs ++ probed evs')%list.
Proof.
  induction evs as [|[p|w] evs IH]; simpl; [done| |done]. by rewrite IH.
Qed.

Lemma probed_probes (candidates : list DebuggerCandidate) :
  probed (map (λ c, Probe (candidate_path c)) candidates)
  = map candidate_path candidates.
Proof. induction candidates as [|c rest IH]; simpl; [done|]. by rewrite IH. Qed.

Lemma probed_override_warning host debuggerPathOverride :
  probed (override_warning host debuggerPathOverride) = [].
Proof.
  unfold override_warning. destruct debuggerPathOverride as [p|]; [|done].
  by destruct (_ && _).
Qed.

(** ** The linker check comes first *)

(** C1.  When the cache has a [CMAKE_LINKER] entry whose value ends in
    [link.exe] or in [ld.lld.exe], the resolver returns the MSVC
    configuration of the target, whatever the platform, the mode override
    and the debugger path override are, and it does so without a single
    probe or warning: nothing after the linker check runs. *)
Theorem msvc_linker_short_circuits
        host cache target platform modeOverride debuggerPathOverride linker :
  cache !! "CMAKE_LINKER" = Some linker →
  JsString.endsWith (value linker) "link.exe" = true
  ∨ JsString.endsWith (value linker) "ld.lld.exe" = true →
  getDebugConfigurationFromCache host cache target platform
    modeOverride debuggerPathOverride
  = MkAsync []
      (Returned (Some {|
         type := "cppvsdbg";
         name := "Debug " ++ target_name target;
         request := "launch";
         cwd := Some (path_dirname host (target_path target));
         args := Some [];
         MIMode := None;
         miDebuggerPath := None;
         setupCommands := None;
         program := target_path target
       |})).
Proof.
  intros Hlinker Hends.
  rewrite getDebugConfigurationFromCache_chain.
  unfold resolution_chain, msvc_linker. rewrite Hlinker.
  destruct Hends as [-> | ->]; [done|].
  by rewrite orb_true_r.
Qed.

Lemma msvc_linker_short_circuits_witness :
  getDebugConfigurationFromCache host_bare_gdb msvc_cache hello "win32"
    (Some gdb) (Some "/opt/tools/readme.txt")
  = MkAsync []
      (Returned (Some {|
         type := "cppvsdbg";
         name := "Debug hello";
         request := "launch";
         cwd := Some "/home/dev/build";
         args := Some [];
         MIMode := None;
         miDebuggerPath := None;
         setupCommands := None;
         program := "/home/dev/build/hello"
       |})).
Proof.
  apply (msvc_linker_short_circuits host_bare_gdb msvc_cache hello "win32"
           (Some gdb) (Some "/opt/tools/readme.txt")
           (entry "CMAKE_LINKER" "C:/VS/VC/bin/Hostx64/x64/link.exe")).
  - reflexivity.
  - left. reflexivity.
Defined.

(** ** Compiler lookup *)

Lemma searchForCompilerPathInCache_eq cache :
  searchForCompilerPathInCache cache
  = match cache !! "CMAKE_CXX_COMPILER", cache !! "CMAKE_C_COMPILER",
          cache !! "CMAKE_CUDA_COMPILER" with
    | Some cxx, _, _ => Some (value cxx)
    | None, Some c, _ => Some (value c)
    | None, None, Some cuda => Some (value cuda)
    | None, None, None => None
    end.
Proof.
  unfold searchForCompilerPathInCache, searchLanguages.
  change ("CMAKE_" ++ "CXX" ++ "_COMPILER") with "CMAKE_CXX_COMPILER".
  change ("CMAKE_" ++ "C" ++ "_COMPILER") with "CMAKE_C_COMPILER".
  change ("CMAKE_" ++ "CUDA" ++ "_COMPILER") with "CMAKE_CUDA_COMPILER".
  destruct (cache !! "CMAKE_CXX_COMPILER"); [done|].
  destruct (cache !! "CMAKE_C_COMPILER"); [done|].
  by destruct (cache !! "CMAKE_CUDA_COMPILER").
Qed.

(** C9.  The compiler lookup reads [CMAKE_CXX_COMPILER], then
    [CMAKE_C_COMPILER], then [CMAKE_CUDA_COMPILER], and answers with the
    value of the first entry that is present.  In particular a cache with
    both a C++ and a C entry yields the value of the C++ entry, and the
    whole resolution of such a cache is that of any cache with the same
    C++ entry and the same linker entry: the other compiler entries are
    not looked at. *)
Theorem compiler_lookup_order (cache : gmap string CacheEntry) :
  searchForCompilerPathInCache cache
  = match cache !! "CMAKE_CXX_COMPILER", cache !! "CMAKE_C_COMPILER",
          cache !! "CMAKE_CUDA_COMPILER" with
    | Some cxx, _, _ => Some (value cxx)
    | None, Some c, _ => Some (value c)
    | None, None, Some cuda => Some (value cuda)
    | None, None, None => None
    end
  ∧ (∀ cxx c,
       cache !! "CMAKE_CXX_COMPILER" = Some cxx →
       cache !! "CMAKE_C_COMPILER" = Some c →
       searchForCompilerPathInCache cache = Some (value cxx))
  ∧ (∀ host (cache' : gmap string CacheEntry) target platform
       modeOverride debuggerPathOverride cxx,
       cache !! "CMAKE_CXX_COMPILER" = Some cxx →
       cache' !! "CMAKE_CXX_COMPILER" = Some cxx →
       cache' !! "CMAKE_LINKER" = cache !! "CMAKE_LINKER" →
       getDebugConfigurationFromCache host cache target platform
         modeOverride debuggerPathOverride
       = getDebugConfigurationFromCache host cache' target platform
           modeOverride debuggerPathOverride).
Proof.
  split; [apply searchForCompilerPathInCache_eq|]. split.
  - intros cxx c Hcxx _. by rewrite searchForCompilerPathInCache_eq, Hcxx.
  - intros host cache' target platform mo dpo cxx Hcxx Hcxx' Hlinker.
    rewrite !getDebugConfigurationFromCache_chain.
    unfold resolution_chain, msvc_linker.
    by rewrite !searchForCompilerPathInCache_eq, Hcxx, Hcxx', Hlinker.
Qed.

Lemma compiler_lookup_order_witness :
  searchForCompilerPathInCache gxx_gcc_cache = Some "/usr/bin/g++"
  ∧ getDebugConfigurationFromCache host_bare_gdb gxx_gcc_cache hello "linux"
      None None
    = getDebugConfigurationFromCache host_bare_gdb (cxx_cache "/usr/bin/g++")
        hello "linux" None None.
Proof.
  destruct (compiler_lookup_order gxx_gcc_cache) as (_ & Hboth & Hsame).
  split.
  - apply (Hboth (entry "CMAKE_CXX_COMPILER" "/usr/bin/g++")
                 (entry "CMAKE_C_COMPILER" "/usr/bin/gcc")); reflexivity.
  - apply (Hsame host_bare_gdb (cxx_cache "/usr/bin/g++") hello "linux" None
                 None (entry "CMAKE_CXX_COMPILER" "/usr/bin/g++"));
      reflexivity.
Defined.

(** C7.  A cache with none of [CMAKE_CXX_COMPILER], [CMAKE_C_COMPILER]
    and [CMAKE_CUDA_COMPILER], no MSVC linker and no accepted debugger
    path override makes the resolver throw "No compiler found in cache
    file."; it does not return [null], and it has probed nothing. *)
Theorem no_compiler_is_fatal
        host cache target platform modeOverride debuggerPathOverride :
  msvc_linker cache = false →
  accepted_override host debuggerPathOverride = None →
  cache !! "CMAKE_CXX_COMPILER" = None →
  cache !! "CMAKE_C_COMPILER" = None →
  cache !! "CMAKE_CUDA_COMPILER" = None →
  let r := getDebugConfigurationFromCache host cache target platform
             modeOverride debuggerPathOverride in
  outcome r = Thrown (localize host "no.compiler.found.in.cache"
                        "No compiler found in cache file." [])
  ∧ probed (events r) = [].
Proof.
  intros Hlinker Hoverride Hcxx Hc Hcuda r. subst r.
  rewrite getDebugConfigurationFromCache_chain.
  unfold resolution_chain.
  rewrite Hlinker, Hoverride, searchForCompilerPathInCache_eq, Hcxx, Hc, Hcuda.
  split; [done|]. simpl.
  by rewrite app_nil_r, probed_override_warning.
Qed.

Lemma no_compiler_is_fatal_witness :
  let r := getDebugConfigurationFromCache host_bare_gdb ∅ hello "linux"
             (Some lldb) (Some "tools/gdb") in
  outcome r = Thrown "No compiler found in cache file."
  ∧ probed (events r) = [].
Proof.
  apply (no_compiler_is_fatal host_bare_gdb ∅ hello "linux" (Some lldb)
           (Some "tools/gdb")); reflexivity.
Defined.

(** ** Precedence of the candidates *)

(** The first candidate that answers the probe wins. *)
Lemma try_candidates_first_ok host target c rest otherwise :
  probe_ok host (candidate_path c) = true →
  try_candidates host target (c :: rest) otherwise
  = after [Probe (candidate_path c)]
      (returned_config
         (createConfig (DEBUG_GEN host (candidate_family c))
            (candidate_path c) target)).
Proof. intros Hok. simpl. by rewrite Hok. Qed.

(** An lldb-mi next to the compiler that answers is chosen, whatever
    else is installed, unless gdb was asked for. *)
Lemma lldb_mi_first
      host cache target platform modeOverride debuggerPathOverride compiler_path :
  msvc_linker cache = false →
  accepted_override host debuggerPathOverride = None →
  searchForCompilerPathInCache cache = Some compiler_path →
  JsString.endsWith compiler_path "cl.exe" = false →
  modeOverride ≠ Some gdb →
  let lldb_mi := replace_clang_compiler_regex compiler_path "lldb-mi" in
  contains lldb_mi "lldb-mi" = true →
  probe_ok host lldb_mi = true →
  getDebugConfigurationFromCache host cache target platform
    modeOverride debuggerPathOverride
  = MkAsync (override_warning host debuggerPathOverride
             ++ [Probe lldb_mi; Probe lldb_mi])
      (Returned (Some (lldb_configuration host lldb_mi target))).
Proof.
  intros Hlinker Hoverride Hcompiler Hcl Hmode lldb_mi Hcontains Hok.
  rewrite getDebugConfigurationFromCache_chain.
  unfold resolution_chain.
  rewrite Hlinker, Hoverride, Hcompiler, Hcl.
  unfold derived_candidates. cbv zeta. fold lldb_mi.
  rewrite Hcontains, (bool_decide_eq_true_2 _ Hmode). cbn [andb].
  rewrite <- app_comm_cons, try_candidates_first_ok by done.
  cbn [candidate_path candidate_family DEBUG_GEN createConfig].
  rewrite createLLDBDebugConfiguration_eq, Hok.
  reflexivity.
Qed.

(** C2.  With the compiler [/usr/bin/clang++], no MSVC linker, no mode
    override and no accepted debugger path override, when both
    [/usr/bin/lldb-mi] and [/usr/bin/gdb] answer the probe, the resolver
    returns the LLDB configuration whose debugger is [/usr/bin/lldb-mi];
    [/usr/bin/gdb] is not even probed. *)
Theorem lldb_mi_precedes_gdb host cache target platform debuggerPathOverride :
  msvc_linker cache = false →
  accepted_override host debuggerPathOverride = None →
  searchForCompilerPathInCache cache = Some "/usr/bin/clang++" →
  probe_ok host "/usr/bin/lldb-mi" = true →
  probe_ok host "/usr/bin/gdb" = true →
  let r := getDebugConfigurationFromCache host cache target platform
             None debuggerPathOverride in
  (∃ config,
     outcome r = Returned (Some config)
     ∧ miDebuggerPath config = Some "/usr/bin/lldb-mi"
     ∧ MIMode config = Some lldb)
  ∧ probed (events r) = ["/usr/bin/lldb-mi"; "/usr/bin/lldb-mi"].
Proof.
  intros Hlinker Hoverride Hcompiler Hlldb_mi _ r. subst r.
  rewrite (lldb_mi_first host cache target platform None debuggerPathOverride
             "/usr/bin/clang++") by done.
  change (replace_clang_compiler_regex "/usr/bin/clang++" "lldb-mi")
    with "/usr/bin/lldb-mi".
  split.
  - by eexists.
  - cbn [events]. by rewrite probed_app, probed_override_warning.
Qed.

Lemma lldb_mi_precedes_gdb_witness :
  let r := getDebugConfigurationFromCache host_lldb_mi_and_gdb
             (cxx_cache "/usr/bin/clang++") hello "linux" None None in
  (∃ config,
     outcome r = Returned (Some config)
     ∧ miDebuggerPath config = Some "/usr/bin/lldb-mi"
     ∧ MIMode config = Some lldb)
  ∧ probed (events r) = ["/usr/bin/lldb-mi"; "/usr/bin/lldb-mi"].
Proof.
  apply (lldb_mi_precedes_gdb host_lldb_mi_and_gdb
           (cxx_cache "/usr/bin/clang++") hello "linux" None); reflexivity.
Defined.

(** ** The builders probe, and may throw *)

(** Against C4 as stated: building does probe and can fail.  With no
    debugger installed, building a GDB configuration runs two
    probes and throws. *)
Lemma build_gdb_probes_and_throws :
  let r := build host_no_debugger GDB "/usr/bin/gdb" hello in
  events r = [Probe "/usr/bin/gdb"; Probe "gdb"]
  ∧ outcome r = Thrown "Unable to find GDB in default search path and gdb.".
Proof. split; reflexivity. Qed.

(** C4, amended.  Only the MSVC builder is pure data assembly: it probes
    nothing and always returns.  The GDB builder probes the path it is
    given and, when that fails, the bare command [gdb]; it returns when
    one of the two answers and throws otherwise.  The LLDB builder probes
    the path it is given; it returns when the path answers and throws
    otherwise. *)
Theorem build_outcome host family path target :
  let r := build host family path target in
  events r
  = match family with
    | MSVC => []
    | GDB => if probe_ok host path then [Probe path]
             else [Probe path; Probe "gdb"]
    | LLDB => [Probe path]
    end
  ∧ returns r
    = match family with
      | MSVC => true
      | GDB => probe_ok host path || probe_ok host "gdb"
      | LLDB => probe_ok host path
      end.
Proof.
  destruct family; cbn [build].
  - done.
  - rewrite createGDBDebugConfiguration_eq.
    destruct (probe_ok host path); [done|].
    by destruct (probe_ok host "gdb").
  - rewrite createLLDBDebugConfiguration_eq.
    by destruct (probe_ok host path).
Qed.

(** Against C5 as stated: the GDB configuration does not share the
    [type] field of the MSVC configuration. *)
Lemma gdb_configuration_type_differs :
  ∃ config,
    outcome (createGDBDebugConfiguration host_bare_gdb "gdb" hello)
    = Returned config
    ∧ type config = "cppdbg"
    ∧ type (createMSVCDebugConfiguration host_bare_gdb hello) = "cppvsdbg"
    ∧ type config ≠ type (createMSVCDebugConfiguration host_bare_gdb hello).
Proof. eexists. repeat split. discriminate. Qed.

(** C5, amended.  The MSVC configuration is [type: 'cppvsdbg'], [name:
    'Debug <target.name>'], [request: 'launch'], [cwd:
    dirname(target.path)], [args: []], [program: target.path] and
    nothing else.  A GDB configuration, when the builder returns one, has
    [type: 'cppdbg'] and otherwise the same six fields, plus [MIMode:
    'gdb'], [miDebuggerPath] (the path given if it answered the probe,
    the bare command [gdb] if only that answered) and the one setup
    command that enables pretty-printing.  An LLDB configuration, when
    the builder returns one, has [type: 'cppdbg'] and otherwise the same
    six fields, plus [MIMode: 'lldb'] and [miDebuggerPath] (the path
    given), and no [setupCommands]. *)
Theorem configuration_shapes host path target :
  createMSVCDebugConfiguration host target
  = {| type := "cppvsdbg";
       name := "Debug " ++ target_name target;
       request := "launch";
       cwd := Some (path_dirname host (target_path target));
       args := Some [];
       MIMode := None;
       miDebuggerPath := None;
       setupCommands := None;
       program := target_path target |}
  ∧ outcome (createGDBDebugConfiguration host path target)
    = (if probe_ok host path || probe_ok host "gdb"
       then Returned
              {| type := "cppdbg";
                 name := "Debug " ++ target_name target;
                 request := "launch";
                 cwd := Some (path_dirname host (target_path target));
                 args := Some [];
                 MIMode := Some gdb;
                 miDebuggerPath :=
                   Some (if probe_ok host path then path else "gdb");
                 setupCommands :=
                   Some [{| description :=
                              Some (localize host "enable.pretty.printing"
                                      "Enable pretty-printing for gdb" []);
                            text := Some "-enable-pretty-printing";
                            ignoreFailures := Some true |}];
                 program := target_path target |}
       else Thrown (localize host "gdb.not.found"
                      "Unable to find GDB in default search path and {0}."
                      ["gdb"]))
  ∧ outcome (createLLDBDebugConfiguration host path target)
    = (if probe_ok host path
       then Returned
              {| type := "cppdbg";
                 name := "Debug " ++ target_name target;
                 request := "launch";
                 cwd := Some (path_dirname host (target_path target));
                 args := Some [];
                 MIMode := Some lldb;
                 miDebuggerPath := Some path;
                 setupCommands := None;
                 program := target_path target |}
       else Thrown (localize host "gdb.not.found"
                      "Unable to find GDB in default search path and {0}."
                      [path])).
Proof.
  split; [done|]. split.
  - rewrite createGDBDebugConfiguration_eq.
    destruct (probe_ok host path); [done|].
    by destruct (probe_ok host "gdb").
  - rewrite createLLDBDebugConfiguration_eq.
    by destruct (probe_ok host path).
Qed.

(** ** A mode override excludes the other family *)

Lemma builder_mode host mode p target config :
  outcome (createConfig (DEBUG_GEN host mode) p target) = Returned config →
  MIMode config = Some mode.
Proof.
  destruct mode; cbn [DEBUG_GEN createConfig].
  - rewrite createLLDBDebugConfiguration_eq.
    destruct (probe_ok host p); [|done]. by intros [= <-].
  - rewrite createGDBDebugConfiguration_eq.
    destruct (probe_ok host p); [by intros [= <-]|].
    destruct (probe_ok host "gdb"); [|done]. by intros [= <-].
Qed.

Lemma builder_probes host mode p target :
  probed (events (createConfig (DEBUG_GEN host mode) p target))
  ⊆ p :: bare_command mode.
Proof.
  destruct mode; cbn [DEBUG_GEN createConfig].
  - rewrite createLLDBDebugConfiguration_eq.
    destruct (probe_ok host p); simpl; set_solver.
  - rewrite createGDBDebugConfiguration_eq.
    destruct (probe_ok host p); [simpl; set_solver|].
    destruct (probe_ok host "gdb"); simpl; set_solver.
Qed.

Lemma returned_config_outcome b config :
  outcome (returned_config b) = Returned (Some config) →
  outcome b = Returned config.
Proof.
  unfold returned_config; simpl. destruct (outcome b); [|done].
  by intros [= ->].
Qed.

Lemma cpptools_lldb_mi_family host c :
  c ∈ cpptools_lldb_mi host → candidate_family c = lldb.
Proof.
  unfold cpptools_lldb_mi.
  destruct (getExtension host "ms-vscode.cpptools"); [|set_solver].
  destruct (truthy _); [|set_solver].
  intros ->%list_elem_of_singleton. done.
Qed.

Lemma derived_candidates_family host mode compiler_path c :
  c ∈ derived_candidates host (Some mode) compiler_path →
  candidate_family c = mode.
Proof.
  unfold derived_candidates. cbv zeta.
  rewrite !elem_of_app.
  destruct mode;
    repeat case_bool_decide; try done; cbn [andb];
    repeat (destruct (contains _ _)); cbn [andb];
    rewrite ?elem_of_cons, ?elem_of_nil;
    intros Hc; destruct_or?; subst; try done;
    by apply (cpptools_lldb_mi_family host).
Qed.

Section OneFamily.
Variables (host : Host) (target : ExecutableTarget) (mode : MIModes).

Abbreviation of_family := (of_family host target mode).

Lemma try_candidates_of_family candidates otherwise result :
  (∀ c, c ∈ candidates → candidate_family c = mode) →
  (outcome otherwise = Returned result → of_family result) →
  outcome (try_candidates host target candidates otherwise) = Returned result →
  of_family result.
Proof.
  intros Hfamily Hotherwise.
  induction candidates as [|c rest IH]; simpl; [done|].
  destruct (probe_ok host (candidate_path c)).
  - rewrite (Hfamily c) by left.
    destruct result as [config|].
    + intros Hr%returned_config_outcome%builder_mode. by left.
    + done.
  - apply IH. intros c' Hc'. apply Hfamily. by right.
Qed.

Lemma try_candidates_probed candidates otherwise :
  (∀ c, c ∈ candidates → candidate_family c = mode) →
  probed (events (try_candidates host target candidates otherwise))
  ⊆ (map candidate_path candidates ++ probed (events otherwise)
     ++ bare_command mode)%list.
Proof.
  intros Hfamily.
  induction candidates as [|c rest IH]; simpl.
  - set_solver.
  - assert (Hrest : ∀ c', c' ∈ rest → candidate_family c' = mode)
      by (intros c' Hc'; apply Hfamily; by right).
    specialize (IH Hrest).
    destruct (probe_ok host (candidate_path c)).
    + pose proof (builder_probes host (candidate_family c)
                    (candidate_path c) target) as Hb.
      rewrite (Hfamily c) in Hb by left.
      set_solver.
    + set_solver.
Qed.

End OneFamily.

Lemma accepted_override_Some host debuggerPathOverride p :
  accepted_override host debuggerPathOverride = Some p →
  debuggerPathOverride = Some p.
Proof.
  unfold accepted_override. destruct debuggerPathOverride as [q|]; [|done].
  destruct (_ && _); [|done]. by intros [= ->].
Qed.

Lemma outcome_after {A} evs (r : Async A) : outcome (after evs r) = outcome r.
Proof. reflexivity. Qed.

Lemma events_after {A} evs (r : Async A) :
  events (after evs r) = (evs ++ events r)%list.
Proof. reflexivity. Qed.

Lemma generic_fallback_of_family host target compiler_path mode result :
  outcome (generic_fallback host target compiler_path mode) = Returned result →
  of_family host target mode result.
Proof.
  unfold generic_fallback. cbv zeta. destruct (contains _ _).
  - destruct result as [config|]; [|done].
    intros Hr%returned_config_outcome%builder_mode. by left.
  - by intros [= <-].
Qed.

Lemma generic_fallback_probed host target compiler_path mode :
  probed (events (generic_fallback host target compiler_path mode))
  ⊆ generic_debugger_path host compiler_path mode :: bare_command mode.
Proof.
  unfold generic_fallback. cbv zeta. destruct (contains _ _).
  - apply builder_probes.
  - simpl. set_solver.
Qed.

Lemma resolution_of_family
      host cache target platform mode debuggerPathOverride result :
  outcome (getDebugConfigurationFromCache host cache target platform
             (Some mode) debuggerPathOverride) = Returned result →
  of_family host target mode result.
Proof.
  rewrite getDebugConfigurationFromCache_chain.
  unfold resolution_chain. cbn [preferred_mode].
  destruct (msvc_linker cache); [intros [= <-]; by right|].
  destruct (accepted_override host debuggerPathOverride) as [p|].
  { destruct result as [config|]; [|done].
    intros Hr%returned_config_outcome%builder_mode. by left. }
  rewrite outcome_after.
  destruct (searchForCompilerPathInCache cache) as [cp|]; [|done].
  destruct (JsString.endsWith cp "cl.exe"); [intros [= <-]; by right|].
  apply try_candidates_of_family.
  - apply derived_candidates_family.
  - apply generic_fallback_of_family.
Qed.

Lemma resolution_probed host cache target platform mode debuggerPathOverride :
  probed (events (getDebugConfigurationFromCache host cache target platform
                    (Some mode) debuggerPathOverride))
  ⊆ family_paths host cache mode debuggerPathOverride.
Proof.
  rewrite getDebugConfigurationFromCache_chain.
  unfold resolution_chain, family_paths. cbn [preferred_mode].
  destruct (msvc_linker cache); [simpl; set_solver|].
  destruct (accepted_override host debuggerPathOverride) as [p|] eqn:Hp.
  { apply accepted_override_Some in Hp as ->.
    pose proof (builder_probes host mode p target). simpl. set_solver. }
  rewrite events_after, probed_app, probed_override_warning, app_nil_l.
  destruct (searchForCompilerPathInCache cache) as [cp|]; [|simpl; set_solver].
  destruct (JsString.endsWith cp "cl.exe"); [simpl; set_solver|].
  pose proof (try_candidates_probed host target mode
                (derived_candidates host (Some mode) cp)
                (generic_fallback host target cp mode)
                (derived_candidates_family host mode cp)).
  pose proof (generic_fallback_probed host target cp mode).
  set_solver.
Qed.

(** With gdb asked for and no gdb that answers, the resolution ends in
    the generic fallback: a fatal error when the generic path mentions
    gdb, and otherwise [null] with a warning. *)
Lemma gdb_override_without_gdb
      host cache target platform debuggerPathOverride compiler_path :
  msvc_linker cache = false →
  accepted_override host debuggerPathOverride = None →
  searchForCompilerPathInCache cache = Some compiler_path →
  JsString.endsWith compiler_path "cl.exe" = false →
  (∀ p, p ∈ family_paths host cache gdb debuggerPathOverride →
        probe_ok host p = false) →
  let r := getDebugConfigurationFromCache host cache target platform
             (Some gdb) debuggerPathOverride in
  if contains (generic_debugger_path host compiler_path gdb) "gdb"
  then outcome r = Thrown (gdb_not_found host "gdb")
  else outcome r = Returned None
       ∧ Warning
           (localize host "unable.to.determine.debugger.for.compiler"
              "Unable to automatically determine debugger corresponding to compiler: {0}"
              [compiler_path]) ∈ events r.
Proof.
  intros Hlinker Hoverride Hcompiler Hcl Hfail r. subst r.
  rewrite getDebugConfigurationFromCache_chain.
  unfold resolution_chain. cbn [preferred_mode].
  rewrite Hlinker, Hoverride, Hcompiler, Hcl.
  unfold family_paths in Hfail. rewrite Hcompiler in Hfail.
  rewrite try_candidates_all_fail.
  2:{ intros c Hc. apply Hfail.
      rewrite !elem_of_app. right; left; left.
      apply list_elem_of_fmap. by exists c. }
  unfold generic_fallback. cbv zeta.
  destruct (contains _ _) eqn:Hcontains.
  - rewrite !outcome_after. cbn [DEBUG_GEN createConfig].
    rewrite createGDBDebugConfiguration_eq.
    rewrite (Hfail (generic_debugger_path host compiler_path gdb)), (Hfail "gdb");
      [done| |]; rewrite !elem_of_app; simpl; set_solver.
  - split; [done|].
    rewrite !events_after. simpl. set_solver.
Qed.

(** Against C3 as stated: gdb asked for, with a working lldb and no gdb
    anywhere, does not always give [null] and a warning: with the compiler
    [/usr/bin/g++] the generic path is [/usr/bin/gdb], the GDB builder is
    called with it, and the builder throws.  No warning is logged. *)
Lemma gdb_override_without_gdb_is_fatal :
  let r := getDebugConfigurationFromCache host_lldb_only
             (cxx_cache "/usr/bin/g++") hello "linux" (Some gdb) None in
  probe_ok host_lldb_only "/usr/bin/lldb" = true
  ∧ outcome r ≠ Returned None
  ∧ outcome r = Thrown "Unable to find GDB in default search path and gdb."
  ∧ probed (events r) = ["/usr/bin/gdb"; "gdb"]
  ∧ warnings (events r) = [].
Proof. repeat split. discriminate. Qed.

(** C3, amended.  With [modeOverride] set to a mode, on every input:
    a configuration that the resolver returns is of that mode (or is the
    MSVC configuration); every path that it probes is the debugger path
    override, a candidate of that mode, the generic path for that mode
    or, for gdb, the bare command [gdb]; and every candidate of steps 1
    to 3 is of that mode, so that no candidate of the other family is
    probed or built.  With gdb asked for and a non-MSVC toolchain, when
    none of the gdb paths answers (whatever lldb does), the result is the
    fatal error of the GDB builder if the generic path mentions [gdb],
    and otherwise [null] with the warning that names the compiler. *)
Theorem mode_override_excludes_other_family
        host cache target platform mode debuggerPathOverride :
  let r := getDebugConfigurationFromCache host cache target platform
             (Some mode) debuggerPathOverride in
  (∀ config,
     outcome r = Returned (Some config) →
     MIMode config = Some mode
     ∨ config = createMSVCDebugConfiguration host target)
  ∧ probed (events r) ⊆ family_paths host cache mode debuggerPathOverride
  ∧ (∀ compiler_path c,
       c ∈ derived_candidates host (Some mode) compiler_path →
       candidate_family c = mode)
  ∧ (∀ compiler_path,
       mode = gdb →
       msvc_linker cache = false →
       accepted_override host debuggerPathOverride = None →
       searchForCompilerPathInCache cache = Some compiler_path →
       JsString.endsWith compiler_path "cl.exe" = false →
       (∀ p, p ∈ family_paths host cache gdb debuggerPathOverride →
             probe_ok host p = false) →
       if contains (generic_debugger_path host compiler_path gdb) "gdb"
       then outcome r = Thrown (gdb_not_found host "gdb")
       else outcome r = Returned None
            ∧ Warning
                (localize host "unable.to.determine.debugger.for.compiler"
                   "Unable to automatically determine debugger corresponding to compiler: {0}"
                   [compiler_path]) ∈ events r).
Proof.
  intros r. subst r. repeat split.
  - intros config Hr.
    apply (resolution_of_family _ _ _ _ _ _ (Some config) Hr).
  - apply resolution_probed.
  - apply derived_candidates_family.
  - intros compiler_path -> Hlinker Hoverride Hcompiler Hcl Hfail.
    by apply gdb_override_without_gdb.
Qed.

Lemma mode_override_excludes_other_family_witness :
  (let r := getDebugConfigurationFromCache host_lldb_only
              (cxx_cache "/usr/bin/clang") hello "linux" (Some gdb) None in
   outcome r = Returned None
   ∧ Warning
       "Unable to automatically determine debugger corresponding to compiler: /usr/bin/clang"
       ∈ events r)
  ∧ (MIMode (gdb_configuration host_bare_gdb "gdb" hello) = Some gdb
     ∨ gdb_configuration host_bare_gdb "gdb" hello
       = createMSVCDebugConfiguration host_bare_gdb hello).
Proof.
  split.
  - destruct (mode_override_excludes_other_family host_lldb_only
                (cxx_cache "/usr/bin/clang") hello "linux" gdb None)
      as (_ & _ & _ & Hnone).
    apply (Hnone "/usr/bin/clang"); try reflexivity.
    intros p Hp. vm_compute in Hp.
    repeat (apply elem_of_cons in Hp as [-> | Hp]; [reflexivity|]).
    by apply elem_of_nil in Hp.
  - destruct (mode_override_excludes_other_family host_bare_gdb
                (cxx_cache "/usr/bin/gcc") hello "linux" gdb None)
      as (Hconfig & _).
    apply (Hconfig (gdb_configuration host_bare_gdb "gdb" hello)).
    reflexivity.
Defined.

(** ** The generic fallback *)

(** When no candidate of steps 1 to 3 answers, the resolver goes on with
    the generic fallback, having probed exactly those candidates. *)
Lemma reaches_generic_fallback
      host cache target platform modeOverride debuggerPathOverride compiler_path :
  msvc_linker cache = false →
  accepted_override host debuggerPathOverride = None →
  searchForCompilerPathInCache cache = Some compiler_path →
  JsString.endsWith compiler_path "cl.exe" = false →
  (∀ c, c ∈ derived_candidates host modeOverride compiler_path →
        probe_ok host (candidate_path c) = false) →
  getDebugConfigurationFromCache host cache target platform
    modeOverride debuggerPathOverride
  = after (override_warning host debuggerPathOverride
           ++ map (λ c, Probe (candidate_path c))
                (derived_candidates host modeOverride compiler_path))
      (generic_fallback host target compiler_path
         (preferred_mode platform modeOverride)).
Proof.
  intros Hlinker Hoverride Hcompiler Hcl Hfail.
  rewrite getDebugConfigurationFromCache_chain.
  unfold resolution_chain.
  rewrite Hlinker, Hoverride, Hcompiler, Hcl.
  rewrite try_candidates_all_fail by done.
  apply after_after.
Qed.

(** Against C6 as stated: an explicitly requested family does not always
    fall back to its bare command, and the absence of that command is
    not always fatal.  With gdb asked for, the compiler
    [/usr/bin/clang] and no debugger at all, the generic path is the
    compiler itself, the bare command [gdb] is never probed, and the
    result is [null], not an error. *)
Lemma gdb_override_without_bare_probe :
  let r := getDebugConfigurationFromCache host_no_debugger
             (cxx_cache "/usr/bin/clang") hello "linux" (Some gdb) None in
  probe_ok host_no_debugger "gdb" = false
  ∧ outcome r = Returned None
  ∧ probed (events r) = ["/usr/bin/gdb"].
Proof. repeat split. Qed.

(** The LLDB builder has no bare command to fall back to: with lldb
    asked for and [lldb] on the search path only, the resolution throws
    without having tried it. *)
Lemma lldb_override_never_tries_bare_lldb :
  let host := posix_host ["lldb"] ["/usr/bin/gcc"] None in
  let r := getDebugConfigurationFromCache host (cxx_cache "/usr/bin/gcc")
             hello "linux" (Some lldb) None in
  probe_ok host "lldb" = true
  ∧ outcome r
    = Thrown "Unable to find GDB in default search path and /usr/bin/lldb."
  ∧ probed (events r) = ["/usr/bin/lldb"].
Proof. repeat split. Qed.

(** C6, amended.  When the preferred family is gdb (asked for, or the
    default of the platform) and no candidate of steps 1 to 3 answers,
    the generic path decides.  If it does not mention [gdb], the result
    is [null] and nothing more is probed.  If it mentions [gdb], the GDB
    builder probes it; when it does not answer, the builder probes the
    bare command [gdb] last, returns the GDB configuration with
    [miDebuggerPath: 'gdb'] when that answers, and throws exactly when
    it does not. *)
Theorem gdb_bare_command_fallback
        host cache target platform modeOverride debuggerPathOverride
        compiler_path :
  msvc_linker cache = false →
  accepted_override host debuggerPathOverride = None →
  searchForCompilerPathInCache cache = Some compiler_path →
  JsString.endsWith compiler_path "cl.exe" = false →
  preferred_mode platform modeOverride = gdb →
  (∀ c, c ∈ derived_candidates host modeOverride compiler_path →
        probe_ok host (candidate_path c) = false) →
  let generic_path := generic_debugger_path host compiler_path gdb in
  let r := getDebugConfigurationFromCache host cache target platform
             modeOverride debuggerPathOverride in
  probed (events r)
  = (map candidate_path (derived_candidates host modeOverride compiler_path)
     ++ (if contains generic_path "gdb"
         then if probe_ok host generic_path
              then [generic_path]
              else [generic_path; "gdb"]
         else []))%list
  ∧ outcome r
    = if contains generic_path "gdb"
      then if probe_ok host generic_path
           then Returned (Some (gdb_configuration host generic_path target))
           else if probe_ok host "gdb"
                then Returned (Some (gdb_configuration host "gdb" target))
                else Thrown (gdb_not_found host "gdb")
      else Returned None.
Proof.
  intros Hlinker Hoverride Hcompiler Hcl Hmode Hfail generic_path r. subst r.
  rewrite (reaches_generic_fallback _ _ _ _ _ _ compiler_path) by done.
  rewrite Hmode. unfold generic_fallback. cbv zeta.
  fold generic_path. cbn [MIModes_value].
  rewrite events_after, outcome_after, !probed_app, probed_override_warning,
    probed_probes, app_nil_l.
  destruct (contains generic_path "gdb"); [|done].
  cbn [DEBUG_GEN createConfig].
  rewrite createGDBDebugConfiguration_eq.
  destruct (probe_ok host generic_path); [done|].
  by destruct (probe_ok host "gdb").
Qed.

Lemma gdb_bare_command_fallback_witness :
  let r := getDebugConfigurationFromCache host_bare_gdb
             (cxx_cache "/usr/bin/gcc") hello "linux" None None in
  probed (events r) = ["/usr/bin/gdb"; "gdb"]
  ∧ outcome r = Returned (Some (gdb_configuration host_bare_gdb "gdb" hello)).
Proof.
  apply (gdb_bare_command_fallback host_bare_gdb (cxx_cache "/usr/bin/gcc")
           hello "linux" None None "/usr/bin/gcc"); try reflexivity.
  intros c Hc. vm_compute in Hc. by apply elem_of_nil in Hc.
Defined.

(** C10.  When no candidate of steps 1 to 3 answers and the generic path
    mentions the name of the preferred family, the resolver calls the
    builder of that family with the generic path and returns what the
    builder returns; before that call it has probed the candidates of
    steps 1 to 3 and nothing else.  Consequently, with gdb preferred,
    when the generic path does not answer the probe of the builder and
    the bare command [gdb] does, the configuration returned has
    [miDebuggerPath: 'gdb']. *)
Theorem generic_path_is_built_unprobed
        host cache target platform modeOverride debuggerPathOverride
        compiler_path :
  msvc_linker cache = false →
  accepted_override host debuggerPathOverride = None →
  searchForCompilerPathInCache cache = Some compiler_path →
  JsString.endsWith compiler_path "cl.exe" = false →
  (∀ c, c ∈ derived_candidates host modeOverride compiler_path →
        probe_ok host (candidate_path c) = false) →
  let mode := preferred_mode platform modeOverride in
  let generic_path := generic_debugger_path host compiler_path mode in
  contains generic_path (MIModes_value mode) = true →
  let r := getDebugConfigurationFromCache host cache target platform
             modeOverride debuggerPathOverride in
  r = after (override_warning host debuggerPathOverride
             ++ map (λ c, Probe (candidate_path c))
                  (derived_candidates host modeOverride compiler_path))
        (returned_config
           (createConfig (DEBUG_GEN host mode) generic_path target))
  ∧ (mode = gdb →
     probe_ok host generic_path = false →
     probe_ok host "gdb" = true →
     ∃ config,
       outcome r = Returned (Some config)
       ∧ miDebuggerPath config = Some "gdb").
Proof.
  intros Hlinker Hoverride Hcompiler Hcl Hfail mode generic_path Hcontains r.
  assert (Hr : r = after (override_warning host debuggerPathOverride
                          ++ map (λ c, Probe (candidate_path c))
                               (derived_candidates host modeOverride
                                  compiler_path))
                     (returned_config
                        (createConfig (DEBUG_GEN host mode) generic_path
                           target))).
  { subst r.
    rewrite (reaches_generic_fallback _ _ _ _ _ _ compiler_path) by done.
    unfold generic_fallback. cbv zeta.
    fold mode. fold generic_path. by rewrite Hcontains. }
  split; [done|].
  intros Hmode Hgeneric Hbare. rewrite Hr, outcome_after.
  revert Hgeneric. subst generic_path. rewrite Hmode. intros Hgeneric.
  cbn [DEBUG_GEN createConfig].
  unfold returned_config.
  rewrite createGDBDebugConfiguration_eq, Hgeneric, Hbare.
  by eexists.
Qed.

Lemma generic_path_is_built_unprobed_witness :
  let r := getDebugConfigurationFromCache host_bare_gdb
             (cxx_cache "/usr/bin/gcc") hello "linux" None None in
  r = MkAsync [Probe "/usr/bin/gdb"; Probe "gdb"]
        (Returned (Some (gdb_configuration host_bare_gdb "gdb" hello)))
  ∧ ∃ config,
      outcome r = Returned (Some config)
      ∧ miDebuggerPath config = Some "gdb".
Proof.
  destruct (generic_path_is_built_unprobed host_bare_gdb
              (cxx_cache "/usr/bin/gcc") hello "linux" None None
              "/usr/bin/gcc") as [Hr Hbare]; try reflexivity.
  { intros c Hc. vm_compute in Hc. by apply elem_of_nil in Hc. }
  split.
  - exact Hr.
  - apply Hbare; reflexivity.
Defined.

(** ** The debugger path override *)

(** Against C8 as stated: an absolute, existing override does not always
    become the [miDebuggerPath] of the result.  The builder probes the
    override, and when it does not answer the GDB builder settles on the
    bare command instead. *)
Lemma existing_override_is_replaced :
  let p := "/opt/tools/readme.txt" in
  let r := getDebugConfigurationFromCache host_bare_gdb
             (cxx_cache "/usr/bin/gcc") hello "linux" None (Some p) in
  path_isAbsolute host_bare_gdb p = true
  ∧ fs_exists host_bare_gdb p = true
  ∧ ∃ config,
      outcome r = Returned (Some config)
      ∧ miDebuggerPath config = Some "gdb"
      ∧ miDebuggerPath config ≠ Some p.
Proof. repeat split. eexists. repeat split. discriminate. Qed.

(** C8, amended.  Without an MSVC linker: an override that is absolute,
    exists and answers the probe of the builder gives a configuration of
    the preferred family whose [miDebuggerPath] is the override, and only
    the override is probed; an override that is not empty and is relative
    or does not exist makes the resolver log the warning about the
    override and then do exactly what it does without an override; an
    empty override is no override. *)
Theorem override_handling host cache target platform modeOverride p :
  msvc_linker cache = false →
  let r := getDebugConfigurationFromCache host cache target platform
             modeOverride (Some p) in
  (truthy p = true →
   path_isAbsolute host p && fs_exists host p = true →
   probe_ok host p = true →
   ∃ config,
     r = MkAsync [Probe p] (Returned (Some config))
     ∧ MIMode config = Some (preferred_mode platform modeOverride)
     ∧ miDebuggerPath config = Some p)
  ∧ (truthy p = true →
     path_isAbsolute host p && fs_exists host p = false →
     r = after
           [Warning
              (localize host "invalid.miDebuggerPath.override"
                 "'{0}' in '{1}' must be an absolute path to a debugger (variable expansion is not currently supported). Got: '{2}'"
                 ["miDebuggerPath"; "cmake.debugConfig"; p])]
           (getDebugConfigurationFromCache host cache target platform
              modeOverride None))
  ∧ (truthy p = false →
     r = getDebugConfigurationFromCache host cache target platform
           modeOverride None).
Proof.
  intros Hlinker r. subst r.
  rewrite !getDebugConfigurationFromCache_chain.
  unfold resolution_chain, accepted_override, override_warning.
  rewrite Hlinker.
  split; [|split].
  - intros -> -> Hok. cbn [andb].
    destruct (preferred_mode platform modeOverride);
      cbn [DEBUG_GEN createConfig].
    + rewrite createLLDBDebugConfiguration_eq, Hok. by eexists.
    + rewrite createGDBDebugConfiguration_eq, Hok. by eexists.
  - intros -> ->. cbn [andb negb]. by rewrite after_nil.
  - intros ->. by cbn [andb].
Qed.

Lemma override_handling_witness :
  (∃ config,
     getDebugConfigurationFromCache host_lldb_only (cxx_cache "/usr/bin/g++")
       hello "linux" (Some lldb) (Some "/usr/bin/lldb")
     = MkAsync [Probe "/usr/bin/lldb"] (Returned (Some config))
     ∧ MIMode config = Some lldb
     ∧ miDebuggerPath config = Some "/usr/bin/lldb")
  ∧ getDebugConfigurationFromCache host_bare_gdb (cxx_cache "/usr/bin/gcc")
      hello "linux" None (Some "tools/gdb")
    = after
        [Warning
           "'miDebuggerPath' in 'cmake.debugConfig' must be an absolute path to a debugger (variable expansion is not currently supported). Got: 'tools/gdb'"]
        (getDebugConfigurationFromCache host_bare_gdb
           (cxx_cache "/usr/bin/gcc") hello "linux" None None)
  ∧ getDebugConfigurationFromCache host_bare_gdb (cxx_cache "/usr/bin/gcc")
      hello "linux" None (Some "")
    = getDebugConfigurationFromCache host_bare_gdb (cxx_cache "/usr/bin/gcc")
        hello "linux" None None.
Proof.
  split; [|split].
  - apply (override_handling host_lldb_only (cxx_cache "/usr/bin/g++") hello
             "linux" (Some lldb) "/usr/bin/lldb"); reflexivity.
  - apply (override_handling host_bare_gdb (cxx_cache "/usr/bin/gcc") hello
             "linux" None "tools/gdb"); reflexivity.
  - apply (override_handling host_bare_gdb (cxx_cache "/usr/bin/gcc") hello
             "linux" None ""); reflexivity.
Defined.

(** * Further properties of the resolver *)

(** ** The compiler check *)

(** X1.  Without an MSVC linker and without an accepted override, a
    compiler whose path ends in [cl.exe] gives the MSVC configuration of
    the target; the only event can be the warning about a refused
    override, and nothing is probed. *)
Theorem cl_exe_compiler_is_msvc
        host cache target platform modeOverride debuggerPathOverride
        compiler_path :
  msvc_linker cache = false →
  accepted_override host debuggerPathOverride = None →
  searchForCompilerPathInCache cache = Some compiler_path →
  JsString.endsWith compiler_path "cl.exe" = true →
  getDebugConfigurationFromCache host cache target platform
    modeOverride debuggerPathOverride
  = MkAsync (override_warning host debuggerPathOverride)
      (Returned (Some (createMSVCDebugConfiguration host target))).
Proof.
  intros Hlinker Hoverride Hcompiler Hcl.
  rewrite getDebugConfigurationFromCache_chain.
  unfold resolution_chain.
  rewrite Hlinker, Hoverride, Hcompiler, Hcl.
  unfold after. cbn [events outcome]. by rewrite app_nil_r.
Qed.

Lemma cl_exe_compiler_is_msvc_witness :
  getDebugConfigurationFromCache host_no_debugger
    (cxx_cache "C:/VS/VC/bin/cl.exe") hello "win32" (Some gdb) None
  = MkAsync [] (Returned (Some (createMSVCDebugConfiguration host_no_debugger hello))).
Proof.
  apply (cl_exe_compiler_is_msvc host_no_debugger
           (cxx_cache "C:/VS/VC/bin/cl.exe") hello "win32" (Some gdb) None
           "C:/VS/VC/bin/cl.exe"); reflexivity.
Defined.

(** ** What the resolver reads *)

(** X2.  The platform is read only to choose the preferred mode: two
    platforms that give the same preferred mode give the same
    resolution.  So the platform is irrelevant under a mode override,
    and without one only its being [darwin] or not matters. *)
Theorem platform_only_sets_preferred_mode
        host cache target platform platform' modeOverride debuggerPathOverride :
  preferred_mode platform modeOverride = preferred_mode platform' modeOverride →
  getDebugConfigurationFromCache host cache target platform
    modeOverride debuggerPathOverride
  = getDebugConfigurationFromCache host cache target platform'
      modeOverride debuggerPathOverride.
Proof.
  intros Hmode.
  rewrite !getDebugConfigurationFromCache_chain.
  unfold resolution_chain. cbv zeta. by rewrite Hmode.
Qed.

Lemma platform_only_sets_preferred_mode_witness :
  getDebugConfigurationFromCache host_bare_gdb (cxx_cache "/usr/bin/gcc")
    hello "linux" None None
  = getDebugConfigurationFromCache host_bare_gdb (cxx_cache "/usr/bin/gcc")
      hello "win32" None None
  ∧ getDebugConfigurationFromCache host_lldb_only (cxx_cache "/usr/bin/g++")
      hello "linux" (Some lldb) None
    = getDebugConfigurationFromCache host_lldb_only (cxx_cache "/usr/bin/g++")
        hello "darwin" (Some lldb) None.
Proof.
  split.
  - apply (platform_only_sets_preferred_mode host_bare_gdb
             (cxx_cache "/usr/bin/gcc") hello "linux" "win32" None None).
    reflexivity.
  - apply (platform_only_sets_preferred_mode host_lldb_only
             (cxx_cache "/usr/bin/g++") hello "linux" "darwin" (Some lldb) None).
    reflexivity.
Defined.

(** X3.  An accepted override ends the resolution before the compiler is
    looked up: without an MSVC linker the compiler entries of the cache
    make no difference (a cache without any compiler resolves like any
    other), and nothing but the override and the bare command [gdb] is
    probed. *)
Theorem accepted_override_skips_compiler_lookup
        host (cache cache' : gmap string CacheEntry) target platform
        modeOverride debuggerPathOverride p :
  msvc_linker cache = false →
  msvc_linker cache' = false →
  accepted_override host debuggerPathOverride = Some p →
  let r := getDebugConfigurationFromCache host cache target platform
             modeOverride debuggerPathOverride in
  r = getDebugConfigurationFromCache host cache' target platform
        modeOverride debuggerPathOverride
  ∧ probed (events r) ⊆ [p; "gdb"].
Proof.
  intros Hlinker Hlinker' Hoverride r. subst r.
  rewrite !getDebugConfigurationFromCache_chain.
  unfold resolution_chain. rewrite Hlinker, Hlinker', Hoverride.
  split; [done|].
  pose proof (builder_probes host (preferred_mode platform modeOverride)
                p target) as Hb.
  cbn [returned_config events].
  destruct (preferred_mode platform modeOverride); set_solver.
Qed.

Lemma accepted_override_skips_compiler_lookup_witness :
  let r := getDebugConfigurationFromCache host_lldb_only
             (cxx_cache "/usr/bin/g++") hello "darwin" None
             (Some "/usr/bin/lldb") in
  r = getDebugConfigurationFromCache host_lldb_only ∅ hello "darwin" None
        (Some "/usr/bin/lldb")
  ∧ probed (events r) ⊆ ["/usr/bin/lldb"; "gdb"].
Proof.
  apply (accepted_override_skips_compiler_lookup host_lldb_only
           (cxx_cache "/usr/bin/g++") ∅ hello "darwin" None
           (Some "/usr/bin/lldb") "/usr/bin/lldb"); reflexivity.
Defined.

(** X4.  The resolver reads four keys of the cache and no other: two
    caches that agree on [CMAKE_LINKER], [CMAKE_CXX_COMPILER],
    [CMAKE_C_COMPILER] and [CMAKE_CUDA_COMPILER] resolve alike. *)
Theorem resolution_reads_four_keys
        host (cache cache' : gmap string CacheEntry) target platform
        modeOverride debuggerPathOverride :
  cache' !! "CMAKE_LINKER" = cache !! "CMAKE_LINKER" →
  cache' !! "CMAKE_CXX_COMPILER" = cache !! "CMAKE_CXX_COMPILER" →
  cache' !! "CMAKE_C_COMPILER" = cache !! "CMAKE_C_COMPILER" →
  cache' !! "CMAKE_CUDA_COMPILER" = cache !! "CMAKE_CUDA_COMPILER" →
  getDebugConfigurationFromCache host cache' target platform
    modeOverride debuggerPathOverride
  = getDebugConfigurationFromCache host cache target platform
      modeOverride debuggerPathOverride.
Proof.
  intros Hlinker Hcxx Hc Hcuda.
  rewrite !getDebugConfigurationFromCache_chain.
  unfold resolution_chain, msvc_linker.
  by rewrite !searchForCompilerPathInCache_eq, Hlinker, Hcxx, Hc, Hcuda.
Qed.

Lemma resolution_reads_four_keys_witness :
  getDebugConfigurationFromCache host_bare_gdb
    (<[ "CMAKE_BUILD_TYPE" := entry "CMAKE_BUILD_TYPE" "Debug" ]>
       (cxx_cache "/usr/bin/gcc"))
    hello "linux" None None
  = getDebugConfigurationFromCache host_bare_gdb (cxx_cache "/usr/bin/gcc")
      hello "linux" None None.
Proof.
  apply (resolution_reads_four_keys host_bare_gdb (cxx_cache "/usr/bin/gcc"));
    reflexivity.
Defined.

(** ** What the resolver returns *)

(** A builder that returns has settled on a path that answered its
    probe. *)
Lemma builder_returns host mode p target config :
  outcome (createConfig (DEBUG_GEN host mode) p target) = Returned config →
  ∃ q, probe_ok host q = true
       ∧ q ∈ probed (events (createConfig (DEBUG_GEN host mode) p target))
       ∧ (config = gdb_configuration host q target
          ∨ config = lldb_configuration host q target).
Proof.
  destruct mode; cbn [DEBUG_GEN createConfig].
  - rewrite createLLDBDebugConfiguration_eq.
    destruct (probe_ok host p) eqn:Hp; [|done]. intros [= <-].
    exists p. split; [done|]. split; [simpl; set_solver|by right].
  - rewrite createGDBDebugConfiguration_eq.
    destruct (probe_ok host p) eqn:Hp.
    + intros [= <-]. exists p. split; [done|]. split; [simpl; set_solver|by left].
    + destruct (probe_ok host "gdb") eqn:Hgdb; [|done]. intros [= <-].
      exists "gdb". split; [done|]. split; [simpl; set_solver|by left].
Qed.

(** A builder does not throw on a path that answers. *)
Lemma builder_returns_on_ok host mode p target :
  probe_ok host p = true →
  ∃ config,
    createConfig (DEBUG_GEN host mode) p target
    = MkAsync [Probe p] (Returned config).
Proof.
  intros Hp. destruct mode; cbn [DEBUG_GEN createConfig].
  - rewrite createLLDBDebugConfiguration_eq, Hp. by eexists.
  - rewrite createGDBDebugConfiguration_eq, Hp. by eexists.
Qed.

Section Validated.
Variables (host : Host) (target : ExecutableTarget).

(** [config] is a GDB or LLDB configuration whose debugger answered a
    probe recorded in [evs]. *)
Abbreviation validated evs config :=
  (∃ p, probe_ok host p = true
        ∧ p ∈ probed evs
        ∧ (config = gdb_configuration host p target
           ∨ config = lldb_configuration host p target)).

Lemma try_candidates_validated candidates otherwise config :
  (outcome otherwise = Returned (Some config) →
   validated (events otherwise) config) →
  outcome (try_candidates host target candidates otherwise)
  = Returned (Some config) →
  validated (events (try_candidates host target candidates otherwise)) config.
Proof.
  intros Hotherwise.
  induction candidates as [|c rest IH]; simpl; [done|].
  destruct (probe_ok host (candidate_path c)).
  - intros (q & Hq & Hin & Hshape)%returned_config_outcome%builder_returns.
    exists q. split; [done|]. split; [|done]. by right.
  - intros (q & Hq & Hin & Hshape)%IH.
    exists q. split; [done|]. split; [|done]. by right.
Qed.

Lemma generic_fallback_validated compiler_path mode config :
  outcome (generic_fallback host target compiler_path mode)
  = Returned (Some config) →
  validated (events (generic_fallback host target compiler_path mode)) config.
Proof.
  unfold generic_fallback. cbv zeta. destruct (contains _ _); [|done].
  by intros ?%returned_config_outcome%builder_returns.
Qed.

End Validated.

(** Every configuration that the resolver returns is the MSVC
    configuration, returned without a probe, or a GDB or LLDB
    configuration whose debugger answered a probe of this resolution. *)
Lemma returned_configuration_cases
      host cache target platform modeOverride debuggerPathOverride config :
  let r := getDebugConfigurationFromCache host cache target platform
             modeOverride debuggerPathOverride in
  outcome r = Returned (Some config) →
  (config = createMSVCDebugConfiguration host target
   ∧ probed (events r) = []
   ∧ (msvc_linker cache = true
      ∨ ∃ compiler_path,
          searchForCompilerPathInCache cache = Some compiler_path
          ∧ JsString.endsWith compiler_path "cl.exe" = true))
  ∨ ∃ p, probe_ok host p = true
         ∧ p ∈ probed (events r)
         ∧ (config = gdb_configuration host p target
            ∨ config = lldb_configuration host p target).
Proof.
  intros r. subst r.
  rewrite getDebugConfigurationFromCache_chain.
  unfold resolution_chain. cbv zeta.
  destruct (msvc_linker cache); [intros [= <-]; left; by auto|].
  destruct (accepted_override host debuggerPathOverride) as [p|].
  { intros ?%returned_config_outcome%builder_returns. by right. }
  rewrite outcome_after, events_after, probed_app, probed_override_warning,
    app_nil_l.
  destruct (searchForCompilerPathInCache cache) as [cp|]; [|done].
  destruct (JsString.endsWith cp "cl.exe") eqn:Hcl.
  { intros [= <-]. left. split; [done|]. split; [done|]. right. by exists cp. }
  intros Hr. right. revert Hr.
  apply try_candidates_validated, generic_fallback_validated.
Qed.

(** X5.  The debugger of a returned configuration has answered the
    probe: whenever the resolver returns a configuration with a
    [miDebuggerPath], that path was probed during this resolution and
    the probe succeeded. *)
Theorem returned_debugger_was_probed
        host cache target platform modeOverride debuggerPathOverride config p :
  let r := getDebugConfigurationFromCache host cache target platform
             modeOverride debuggerPathOverride in
  outcome r = Returned (Some config) →
  miDebuggerPath config = Some p →
  probe_ok host p = true ∧ p ∈ probed (events r).
Proof.
  intros r Hr Hp.
  destruct (returned_configuration_cases _ _ _ _ _ _ _ Hr)
    as [(-> & _) | (q & Hq & Hin & [-> | ->])];
    [done| |]; injection Hp as <-; done.
Qed.

Lemma returned_debugger_was_probed_witness :
  probe_ok host_bare_gdb "gdb" = true
  ∧ "gdb" ∈ probed (events (getDebugConfigurationFromCache host_bare_gdb
                              (cxx_cache "/usr/bin/gcc") hello "linux"
                              None None)).
Proof.
  apply (returned_debugger_was_probed host_bare_gdb (cxx_cache "/usr/bin/gcc")
           hello "linux" None None
           (gdb_configuration host_bare_gdb "gdb" hello) "gdb"); reflexivity.
Defined.

(** X6.  Whatever branch returns it, a configuration has [name: 'Debug
    <target.name>'], [request: 'launch'], [cwd: dirname(target.path)],
    [args: []] and [program: target.path], and its remaining fields go
    together: without [MIMode] the type is [cppvsdbg] and there is
    neither a debugger path nor setup commands; with [MIMode: 'gdb'] the
    type is [cppdbg], there is a debugger path and the one setup command
    for pretty-printing; with [MIMode: 'lldb'] the type is [cppdbg],
    there is a debugger path and there are no setup commands. *)
Theorem returned_configuration_fields
        host cache target platform modeOverride debuggerPathOverride config :
  outcome (getDebugConfigurationFromCache host cache target platform
             modeOverride debuggerPathOverride)
  = Returned (Some config) →
  name config = "Debug " ++ target_name target
  ∧ request config = "launch"
  ∧ cwd config = Some (path_dirname host (target_path target))
  ∧ args config = Some []
  ∧ program config = target_path target
  ∧ match MIMode config with
    | None =>
        type config = "cppvsdbg"
        ∧ miDebuggerPath config = None
        ∧ setupCommands config = None
    | Some gdb =>
        type config = "cppdbg"
        ∧ is_Some (miDebuggerPath config)
        ∧ setupCommands config
          = Some [{| description :=
                       Some (localize host "enable.pretty.printing"
                               "Enable pretty-printing for gdb" []);
                     text := Some "-enable-pretty-printing";
                     ignoreFailures := Some true |}]
    | Some lldb =>
        type config = "cppdbg"
        ∧ is_Some (miDebuggerPath config)
        ∧ setupCommands config = None
    end.
Proof.
  intros Hr.
  destruct (returned_configuration_cases _ _ _ _ _ _ _ Hr)
    as [(-> & _) | (q & _ & _ & [-> | ->])]; simpl; by eauto 10.
Qed.

Lemma returned_configuration_fields_witness :
  let config := lldb_configuration host_lldb_mi_and_gdb "/usr/bin/lldb-mi"
                  hello in
  name config = "Debug hello"
  ∧ request config = "launch"
  ∧ cwd config = Some "/home/dev/build"
  ∧ args config = Some []
  ∧ program config = "/home/dev/build/hello"
  ∧ type config = "cppdbg"
  ∧ is_Some (miDebuggerPath config)
  ∧ setupCommands config = None.
Proof.
  apply (returned_configuration_fields host_lldb_mi_and_gdb
           (cxx_cache "/usr/bin/clang++") hello "linux" None None).
  reflexivity.
Defined.

(** X7.  The MSVC configuration is returned for an MSVC toolchain only:
    a returned configuration without [MIMode] means that the linker is
    an MSVC linker or that the compiler path ends in [cl.exe], and then
    nothing was probed. *)
Theorem msvc_only_for_msvc_toolchain
        host cache target platform modeOverride debuggerPathOverride config :
  let r := getDebugConfigurationFromCache host cache target platform
             modeOverride debuggerPathOverride in
  outcome r = Returned (Some config) →
  MIMode config = None →
  probed (events r) = []
  ∧ (msvc_linker cache = true
     ∨ ∃ compiler_path,
         searchForCompilerPathInCache cache = Some compiler_path
         ∧ JsString.endsWith compiler_path "cl.exe" = true).
Proof.
  intros r Hr Hmode.
  destruct (returned_configuration_cases _ _ _ _ _ _ _ Hr)
    as [(_ & Hprobed & Htoolchain) | (q & _ & _ & [-> | ->])]; done.
Qed.

Lemma msvc_only_for_msvc_toolchain_witness :
  probed (events (getDebugConfigurationFromCache host_bare_gdb msvc_cache
                    hello "win32" None None)) = []
  ∧ (msvc_linker msvc_cache = true
     ∨ ∃ compiler_path,
         searchForCompilerPathInCache msvc_cache = Some compiler_path
         ∧ JsString.endsWith compiler_path "cl.exe" = true).
Proof.
  apply (msvc_only_for_msvc_toolchain host_bare_gdb msvc_cache hello "win32"
           None None (createMSVCDebugConfiguration host_bare_gdb hello));
    reflexivity.
Defined.

(** ** How the resolver gives up *)

Lemma returned_config_not_null b :
  outcome (returned_config b) ≠ Returned None.
Proof. unfold returned_config; simpl. by destruct (outcome b). Qed.


(** A candidate that answers ends the resolution with a configuration:
    giving up, with [null] or with an error, means that every candidate
    failed. *)
Lemma try_candidates_gives_up host target candidates otherwise :
  (∀ config,
     outcome (try_candidates host target candidates otherwise)
     ≠ Returned (Some config)) →
  ∀ c, c ∈ candidates → probe_ok host (candidate_path c) = false.
Proof.
  induction candidates as [|c rest IH]; simpl; intros Hr c' Hc'.
  { by apply elem_of_nil in Hc'. }
  destruct (probe_ok host (candidate_path c)) eqn:Hc.
  - destruct (builder_returns_on_ok host (candidate_family c)
                (candidate_path c) target Hc) as [config Hb].
    destruct (Hr config). by rewrite Hb.
  - apply elem_of_cons in Hc' as [-> | Hc']; [done|]. by apply IH.
Qed.

(** When the resolver does not return a configuration, it has looked up
    a compiler or failed to, no candidate has answered, and the outcome
    is that of the generic fallback. *)
Lemma gives_up_in_generic_fallback
      host cache target platform modeOverride debuggerPathOverride compiler_path :
  let r := getDebugConfigurationFromCache host cache target platform
             modeOverride debuggerPathOverride in
  msvc_linker cache = false →
  accepted_override host debuggerPathOverride = None →
  searchForCompilerPathInCache cache = Some compiler_path →
  (∀ config, outcome r ≠ Returned (Some config)) →
  JsString.endsWith compiler_path "cl.exe" = false
  ∧ (∀ c, c ∈ derived_candidates host modeOverride compiler_path →
          probe_ok host (candidate_path c) = false)
  ∧ r = after (override_warning host debuggerPathOverride
               ++ map (λ c, Probe (candidate_path c))
                    (derived_candidates host modeOverride compiler_path))
          (generic_fallback host target compiler_path
             (preferred_mode platform modeOverride)).
Proof.
  intros r Hlinker Hoverride Hcompiler Hr.
  assert (Hcl : JsString.endsWith compiler_path "cl.exe" = false).
  { destruct (JsString.endsWith compiler_path "cl.exe") eqn:Hcl; [|done].
    destruct (Hr (createMSVCDebugConfiguration host target)). subst r.
    rewrite getDebugConfigurationFromCache_chain. unfold resolution_chain.
    by rewrite Hlinker, Hoverride, Hcompiler, Hcl. }
  assert (Hfail : ∀ c, c ∈ derived_candidates host modeOverride compiler_path →
                       probe_ok host (candidate_path c) = false).
  { apply (try_candidates_gives_up host target _
             (generic_fallback host target compiler_path
                (preferred_mode platform modeOverride))).
    intros config Hc. apply (Hr config). subst r.
    rewrite getDebugConfigurationFromCache_chain. unfold resolution_chain.
    by rewrite Hlinker, Hoverride, Hcompiler, Hcl. }
  split; [done|]. split; [done|].
  by apply reaches_generic_fallback.
Qed.

(** X8.  [null] comes with its warning, and only from the end of the
    chain: when the resolver returns [null], the cache has a compiler,
    every candidate of steps 1 to 3 was probed and failed, the generic
    path does not mention the preferred debugger, and the last event is
    the warning that names the compiler. *)
Theorem null_only_with_warning
        host cache target platform modeOverride debuggerPathOverride :
  let r := getDebugConfigurationFromCache host cache target platform
             modeOverride debuggerPathOverride in
  let mode := preferred_mode platform modeOverride in
  outcome r = Returned None →
  ∃ compiler_path,
    searchForCompilerPathInCache cache = Some compiler_path
    ∧ contains (generic_debugger_path host compiler_path mode)
        (MIModes_value mode) = false
    ∧ probed (events r)
      = map candidate_path
          (derived_candidates host modeOverride compiler_path)
    ∧ (∀ p, p ∈ probed (events r) → probe_ok host p = false)
    ∧ last (events r)
      = Some (Warning
                (localize host "unable.to.determine.debugger.for.compiler"
                   "Unable to automatically determine debugger corresponding to compiler: {0}"
                   [compiler_path])).
Proof.
  intros r mode Hr.
  assert (Hlinker : msvc_linker cache = false).
  { destruct (msvc_linker cache) eqn:Hl; [|done]. subst r.
    rewrite getDebugConfigurationFromCache_chain in Hr.
    unfold resolution_chain in Hr. by rewrite Hl in Hr. }
  assert (Hoverride : accepted_override host debuggerPathOverride = None).
  { destruct (accepted_override host debuggerPathOverride) as [p|] eqn:Ho;
      [|done]. subst r.
    rewrite getDebugConfigurationFromCache_chain in Hr.
    unfold resolution_chain in Hr. rewrite Hlinker, Ho in Hr.
    by apply returned_config_not_null in Hr. }
  destruct (searchForCompilerPathInCache cache) as [cp|] eqn:Hcompiler.
  2:{ subst r. rewrite getDebugConfigurationFromCache_chain in Hr.
      unfold resolution_chain in Hr.
      by rewrite Hlinker, Hoverride, Hcompiler in Hr. }
  exists cp. split; [done|].
  destruct (gives_up_in_generic_fallback host cache target platform
              modeOverride debuggerPathOverride cp)
    as (_ & Hfail & Heq); try done.
  { intros config. fold r. by rewrite Hr. }
  fold r in Heq. fold mode in Heq. rewrite Heq in Hr |- *.
  rewrite outcome_after in Hr. unfold generic_fallback in *. cbv zeta in *.
  destruct (contains _ _).
  { by apply returned_config_not_null in Hr. }
  split; [done|].
  rewrite events_after. cbn [events].
  rewrite !probed_app, probed_override_warning, probed_probes.
  cbn [probed]. rewrite app_nil_r, app_nil_l.
  split; [done|]. split.
  - intros p (c & -> & Hc)%list_elem_of_fmap. by apply Hfail.
  - apply last_snoc.
Qed.

Lemma null_only_with_warning_witness :
  ∃ compiler_path,
    searchForCompilerPathInCache (cxx_cache "/usr/bin/clang")
    = Some compiler_path
    ∧ contains (generic_debugger_path host_no_debugger compiler_path gdb)
        "gdb" = false
    ∧ probed (events (getDebugConfigurationFromCache host_no_debugger
                        (cxx_cache "/usr/bin/clang") hello "linux"
                        (Some gdb) None))
      = map candidate_path
          (derived_candidates host_no_debugger (Some gdb) compiler_path)
    ∧ (∀ p, p ∈ probed (events (getDebugConfigurationFromCache
                                  host_no_debugger
                                  (cxx_cache "/usr/bin/clang") hello "linux"
                                  (Some gdb) None)) →
            probe_ok host_no_debugger p = false)
    ∧ last (events (getDebugConfigurationFromCache host_no_debugger
                      (cxx_cache "/usr/bin/clang") hello "linux"
                      (Some gdb) None))
      = Some (Warning
                (localize host_no_debugger
                   "unable.to.determine.debugger.for.compiler"
                   "Unable to automatically determine debugger corresponding to compiler: {0}"
                   [compiler_path])).
Proof.
  apply (null_only_with_warning host_no_debugger (cxx_cache "/usr/bin/clang")
           hello "linux" (Some gdb) None).
  reflexivity.
Defined.




(** ** How much the resolver does *)


Lemma warnings_probes (candidates : list DebuggerCandidate) :
  warnings (map (λ c, Probe (candidate_path c)) candidates) = [].
Proof. by induction candidates. Qed.






(** The bound of six probes is reached. *)
Example six_probes :
  let host := posix_host [] [] (Some "/opt/cpptools") in
  probed (events (getDebugConfigurationFromCache host
                    (cxx_cache "/usr/bin/clang++") hello "linux" None None))
  = ["/usr/bin/lldb-mi"; "/opt/cpptools/debugAdapters/lldb-mi/bin/lldb-mi";
     "/usr/bin/gdb"; "/usr/bin/lldb"; "/usr/bin/gdb"; "gdb"].
Proof. reflexivity. Qed.

(** ** Order of the candidates *)

(** X11.  The candidates of steps 1 to 3 are probed in order and the
    first one that answers is built: when the candidates before it have
    failed, the result is the configuration of its family with its path,
    whatever the platform and the preferred mode are, and the candidates
    after it are not probed. *)
Theorem first_answering_candidate_wins
        host cache target platform modeOverride debuggerPathOverride
        compiler_path before c rest :
  msvc_linker cache = false →
  accepted_override host debuggerPathOverride = None →
  searchForCompilerPathInCache cache = Some compiler_path →
  JsString.endsWith compiler_path "cl.exe" = false →
  derived_candidates host modeOverride compiler_path = (before ++ c :: rest)%list →
  (∀ c', c' ∈ before → probe_ok host (candidate_path c') = false) →
  probe_ok host (candidate_path c) = true →
  let r := getDebugConfigurationFromCache host cache target platform
             modeOverride debuggerPathOverride in
  probed (events r)
  = (map candidate_path before ++ [candidate_path c; candidate_path c])%list
  ∧ outcome r
    = Returned (Some (match candidate_family c with
                      | gdb => gdb_configuration
                      | lldb => lldb_configuration
                      end host (candidate_path c) target)).
Proof.
  intros Hlinker Hoverride Hcompiler Hcl Hcands Hfail Hok r. subst r.
  rewrite getDebugConfigurationFromCache_chain.
  unfold resolution_chain.
  rewrite Hlinker, Hoverride, Hcompiler, Hcl, Hcands.
  rewrite try_candidates_app, try_candidates_all_fail by done.
  rewrite try_candidates_first_ok by done.
  rewrite !events_after, !outcome_after, !probed_app,
    probed_override_warning, probed_probes, app_nil_l.
  destruct (candidate_family c); cbn [DEBUG_GEN createConfig].
  - by rewrite createLLDBDebugConfiguration_eq, Hok.
  - by rewrite createGDBDebugConfiguration_eq, Hok.
Qed.

Lemma first_answering_candidate_wins_witness :
  let host := posix_host ["/usr/bin/gdb"; "/usr/bin/lldb"]
                         ["/usr/bin/clang"] None in
  let r := getDebugConfigurationFromCache host (cxx_cache "/usr/bin/clang")
             hello "darwin" None None in
  probed (events r) = ["/usr/bin/lldb-mi"; "/usr/bin/gdb"; "/usr/bin/gdb"]
  ∧ outcome r = Returned (Some (gdb_configuration host "/usr/bin/gdb" hello)).
Proof.
  apply (first_answering_candidate_wins
           (posix_host ["/usr/bin/gdb"; "/usr/bin/lldb"] ["/usr/bin/clang"] None)
           (cxx_cache "/usr/bin/clang") hello "darwin" None None
           "/usr/bin/clang"
           [{| candidate_path := "/usr/bin/lldb-mi"; candidate_family := lldb |}]
           {| candidate_path := "/usr/bin/gdb"; candidate_family := gdb |}
           [{| candidate_path := "/usr/bin/lldb"; candidate_family := lldb |}]);
    try reflexivity.
  intros c' ->%list_elem_of_singleton. reflexivity.
Defined.

(** ** The regular expressions *)

Section RegexFacts.
Import JsString.

Lemma append_cons c (x y : string) : String c x ++ y = String c (x ++ y).
Proof. reflexivity. Qed.

Lemma eqb_ci_slash x : eqb_ci x "/" = true → x = "/"%char.
Proof.
  destruct x as [[] [] [] [] [] [] [] []]; vm_compute; congruence.
Qed.

Lemma eqb_ci_backslash x : eqb_ci x "\" = true → x = "\"%char.
Proof.
  destruct x as [[] [] [] [] [] [] [] []]; vm_compute; congruence.
Qed.

Lemma eqb_ci_sym a b : eqb_ci a b = eqb_ci b a.
Proof.
  unfold eqb_ci. destruct (Ascii.eqb_spec (fold_case a) (fold_case b)) as [->|Hne].
  - symmetry. apply Ascii.eqb_refl.
  - symmetry. apply Ascii.eqb_neq. congruence.
Qed.

(** A literal without separators matches no separator. *)
Lemma startsWith_ci_no_separator (s p : string) :
  startsWith_ci s p = true →
  no_separator p = true →
  no_separator (drop (length p) s) = true →
  no_separator s = true.
Proof.
  unfold length. revert s. induction p as [|a p IH]; intros s; simpl; [done|].
  destruct s as [|b s]; [done|]. simpl.
  intros [Hab Hp]%andb_true_iff [[Ha1 Ha2]%andb_true_iff Hnp]%andb_true_iff Hd.
  rewrite (IH s) by done. rewrite andb_true_r.
  apply andb_true_iff. split; apply negb_true_iff, Ascii.eqb_neq; intros ->.
  - rewrite eqb_ci_sym in Hab. apply eqb_ci_slash in Hab as ->. done.
  - rewrite eqb_ci_sym in Hab. apply eqb_ci_backslash in Hab as ->. done.
Qed.

Lemma gcc_match_no_separator (s : string) n :
  Regex.gcc_match s = Some n → no_separator s = true.
Proof.
  unfold Regex.gcc_match.
  destruct ((startsWith_ci s "c++" || startsWith_ci s "g++")
            && no_separator (drop 3 s)) eqn:H1.
  { intros _. apply andb_true_iff in H1 as [[H|H]%orb_true_iff Hd];
      by eapply startsWith_ci_no_separator. }
  destruct (startsWith_ci s "gcc" && no_separator (drop 3 s)) eqn:H2.
  { intros _. apply andb_true_iff in H2 as [H Hd].
    by eapply startsWith_ci_no_separator. }
  destruct (startsWith_ci s "cc" && no_separator (drop 2 s)) eqn:H3; [|done].
  intros _. apply andb_true_iff in H3 as [H Hd].
  by eapply startsWith_ci_no_separator.
Qed.

Lemma no_separator_app_sep (x y : string) sep :
  sep = "/"%char ∨ sep = "\"%char →
  no_separator (x ++ String sep y) = false.
Proof.
  intros Hsep. induction x as [|c x IH].
  - destruct Hsep as [-> | ->]; reflexivity.
  - rewrite append_cons. simpl. rewrite IH. apply andb_false_r.
Qed.

End RegexFacts.

Lemma replace_gcc_after_separator (dir file rep : string) sep :
  sep = "/"%char ∨ sep = "\"%char →
  replace_gcc_compiler_regex (dir ++ String sep file) rep
  = dir ++ String sep (replace_gcc_compiler_regex file rep).
Proof.
  intros Hsep. unfold replace_gcc_compiler_regex, Regex.replace.
  induction dir as [|c dir IH].
  - change ("" ++ String sep file) with (String sep file).
    cbn [Regex.replace_from].
    destruct (Regex.gcc_match (String sep file)) as [n|] eqn:Hm; [|done].
    apply gcc_match_no_separator in Hm.
    pose proof (no_separator_app_sep "" file sep Hsep) as Hf.
    change ("" ++ String sep file) with (String sep file) in Hf. congruence.
  - rewrite !append_cons. cbn [Regex.replace_from].
    destruct (Regex.gcc_match _) as [n|] eqn:Hm; [|by rewrite IH].
    apply gcc_match_no_separator in Hm.
    pose proof (no_separator_app_sep (String c dir) file sep Hsep) as Hf.
    rewrite append_cons in Hf. congruence.
Qed.

(** X12.  The gcc pattern rewrites the last path component only: the
    text up to and including the last ['/'] or ['\'] is copied as it
    is, whatever it contains. *)
Theorem gcc_regex_keeps_directories (dir file rep : string) sep :
  sep = "/"%char ∨ sep = "\"%char →
  replace_gcc_compiler_regex (dir ++ String sep file) rep
  = dir ++ String sep (replace_gcc_compiler_regex file rep).
Proof. apply replace_gcc_after_separator. Qed.

Lemma gcc_regex_keeps_directories_witness :
  replace_gcc_compiler_regex ("/opt/gcc/bin" ++ String "/" "gcc") "gdb"
  = "/opt/gcc/bin" ++ String "/" (replace_gcc_compiler_regex "gcc" "gdb").
Proof. apply gcc_regex_keeps_directories. by left. Defined.

Lemma startsWith_ci_nil (s : string) : JsString.startsWith_ci s "" = true.
Proof. by destruct s. Qed.

Lemma gcc_match_name (name suffix : string) :
  name ∈ ["gcc"; "g++"; "c++"; "cc"] →
  JsString.no_separator suffix = true →
  Regex.gcc_match (name ++ suffix) = Some (JsString.length name).
Proof.
  intros Hname Hsuffix. unfold Regex.gcc_match.
  repeat (apply elem_of_cons in Hname as [-> | Hname]);
    [| | | |by apply elem_of_nil in Hname];
    rewrite ?append_cons;
    change ("" ++ suffix) with suffix;
    cbn [JsString.startsWith_ci JsString.drop JsString.eqb_ci orb andb];
    rewrite ?startsWith_ci_nil, Hsuffix; reflexivity.
Qed.

Lemma replace_from_skip match_at rep (name suffix : string) :
  Regex.replace_from match_at rep (JsString.length name) (name ++ suffix)
  = Regex.replace_from match_at rep 0 suffix.
Proof.
  unfold JsString.length. induction name as [|c name IH]; [done|].
  rewrite append_cons. simpl. apply IH.
Qed.

(** X13.  In any directory, a compiler named [gcc], [g++], [c++] or [cc],
    possibly followed by a suffix such as a version or [.exe], is
    renamed to the debugger: the directory is kept, the name is replaced
    and the suffix is rewritten on its own. *)
Theorem gcc_regex_renames_compiler (dir name suffix rep : string) sep :
  sep = "/"%char ∨ sep = "\"%char →
  name ∈ ["gcc"; "g++"; "c++"; "cc"] →
  JsString.no_separator suffix = true →
  replace_gcc_compiler_regex (dir ++ String sep (name ++ suffix)) rep
  = dir ++ String sep (rep ++ replace_gcc_compiler_regex suffix rep).
Proof.
  intros Hsep Hname Hsuffix.
  rewrite replace_gcc_after_separator by done. do 2 f_equal.
  unfold replace_gcc_compiler_regex, Regex.replace.
  pose proof (gcc_match_name name suffix Hname Hsuffix) as Hm.
  destruct name as [|c name].
  { repeat (apply elem_of_cons in Hname as [? | Hname]; [done|]).
    by apply elem_of_nil in Hname. }
  rewrite append_cons in Hm |- *. cbn [Regex.replace_from]. rewrite Hm.
  unfold JsString.length. cbn [String.length]. f_equal.
  apply (replace_from_skip Regex.gcc_match rep name suffix).
Qed.

Lemma gcc_regex_renames_compiler_witness :
  replace_gcc_compiler_regex
    ("C:\msys64\mingw64\bin" ++ String "\" ("g++" ++ ".exe")) "gdb"
  = "C:\msys64\mingw64\bin"
    ++ String "\" ("gdb" ++ replace_gcc_compiler_regex ".exe" "gdb").
Proof.
  apply gcc_regex_renames_compiler.
  - by right.
  - apply elem_of_cons. right. by left.
  - reflexivity.
Defined.

Section ClangFacts.
Import JsString.

Lemma drop_drop n m (s : string) : drop n (drop m s) = drop (m + n) s.
Proof.
  revert s. induction m as [|m IH]; intros s; [done|].
  destruct s as [|c s]; simpl; [by destruct n|]. apply IH.
Qed.

Lemma plus_run_le m (s : string) : (plus_run m s ≤ length s)%nat.
Proof.
  unfold length. revert s. induction m as [|m IH]; intros s; simpl; [lia|].
  destruct s as [|c s]; [done|].
  destruct (Ascii.eqb_spec c "+") as [->|Hc].
  - simpl. specialize (IH s). lia.
  - destruct c as [[] [] [] [] [] [] [] []]; simpl; try lia. done.
Qed.

Lemma startsWith_ci_app (s p q : string) :
  startsWith_ci s (p ++ q)
  = startsWith_ci s p && startsWith_ci (drop (length p) s) q.
Proof.
  unfold length. revert s. induction p as [|a p IH]; intros s.
  - change ("" ++ q) with q. simpl. by destruct s.
  - rewrite append_cons. destruct s as [|b s]; simpl; [done|].
    by rewrite IH, andb_assoc.
Qed.

Lemma eqb_ci_dash x : eqb_ci "-" x = true → x = "-"%char.
Proof.
  destruct x as [[] [] [] [] [] [] [] []]; vm_compute; congruence.
Qed.

Lemma drop_drop_drop n k (s : string) m :
  m = (5 + k + n)%nat → drop m s = drop n (drop k (drop 5 s)).
Proof. intros ->. rewrite !drop_drop. f_equal; lia. Qed.

(** What a match of the clang pattern looks like. *)
Lemma clang_match_at_sound fuel (s : string) n :
  Regex.clang_match_at fuel s = Some n →
  startsWith_ci s "clang" = true
  ∧ (5 ≤ n ≤ length s)%nat
  ∧ startsWith_ci (drop n s) "-cl" = false.
Proof.
  revert s n. induction fuel as [|fuel IH]; intros s n; [done|].
  cbn [Regex.clang_match_at].
  destruct (startsWith_ci s "clang") eqn:E; [|done].
  pose proof (startsWith_ci_length _ _ E) as Hlen.
  unfold length in Hlen. simpl in Hlen.
  pose proof (plus_run_le 2 (drop 5 s)) as Hk. revert Hk.
  generalize (plus_run 2 (drop 5 s)). intros k Hk Hm.
  split; [done|]. revert Hk Hm.
  rewrite length_drop. unfold length.
  induction k as [|k IHk]; intros Hk.
  - destruct (Regex.clang_match_at fuel (drop 0 (drop 5 s))) as [n'|] eqn:Hrec.
    + intros [= <-]. apply IH in Hrec as (_ & Hn' & Hla).
      rewrite !length_drop in Hn'. unfold length in Hn'.
      split; [lia|]. erewrite drop_drop_drop; [apply Hla|lia].
    + destruct (startsWith_ci (drop 0 (drop 5 s)) "-cl") eqn:Hla; [done|].
      intros [= <-]. split; [lia|].
      erewrite (drop_drop_drop 0); [apply Hla|lia].
  - destruct (Regex.clang_match_at fuel (drop (S k) (drop 5 s)))
      as [n'|] eqn:Hrec.
    + intros [= <-]. apply IH in Hrec as (_ & Hn' & Hla).
      rewrite !length_drop in Hn'. unfold length in Hn'.
      split; [lia|]. erewrite drop_drop_drop; [apply Hla|lia].
    + destruct (startsWith_ci (drop (S k) (drop 5 s)) "-cl") eqn:Hla.
      * cbn [negb]. intros Hm. apply IHk; [lia|done].
      * intros [= <-]. split; [lia|].
        erewrite (drop_drop_drop 0); [apply Hla|lia].
Qed.

Lemma clang_cl_never_matches fuel (s : string) :
  startsWith_ci s "clang-cl" = true → Regex.clang_match_at fuel s = None.
Proof.
  change "clang-cl" with ("clang" ++ "-cl").
  rewrite startsWith_ci_app. intros [Hclang Hcl]%andb_true_iff.
  destruct fuel as [|fuel]; [done|].
  cbn [Regex.clang_match_at]. rewrite Hclang.
  change (length "clang") with 5%nat in Hcl.
  destruct (drop 5 s) as [|c r] eqn:Hr; [done|].
  assert (c = "-"%char) as ->.
  { apply eqb_ci_dash. simpl in Hcl. by apply andb_true_iff in Hcl as [? _]. }
  cbn [plus_run]. cbn [drop]. rewrite Hcl. cbn [negb].
  by destruct fuel.
Qed.

End ClangFacts.

(** X14.  The clang pattern honours its negative lookahead.  A match
    starts with [clang] (in any case), is at least five characters long,
    stays within the string, and is never followed directly by [-cl];
    and where [clang-cl] starts (in any case) there is no match at all. *)
Theorem clang_regex_lookahead (s : string) :
  (∀ n, Regex.clang_match s = Some n →
        JsString.startsWith_ci s "clang" = true
        ∧ (5 ≤ n ≤ JsString.length s)%nat
        ∧ JsString.startsWith_ci (JsString.drop n s) "-cl" = false)
  ∧ (JsString.startsWith_ci s "clang-cl" = true →
     Regex.clang_match s = None).
Proof.
  split.
  - intros n. apply clang_match_at_sound.
  - apply clang_cl_never_matches.
Qed.

Lemma clang_regex_lookahead_witness :
  (JsString.startsWith_ci "clang++-12" "clang" = true
   ∧ (5 ≤ 7 ≤ JsString.length "clang++-12")%nat
   ∧ JsString.startsWith_ci (JsString.drop 7 "clang++-12") "-cl" = false)
  ∧ Regex.clang_match "Clang-CL.exe" = None.
Proof.
  split.
  - apply (proj1 (clang_regex_lookahead "clang++-12") 7%nat). reflexivity.
  - apply (proj2 (clang_regex_lookahead "Clang-CL.exe")). reflexivity.
Defined.

(** ** The compiler lookup and updates of the cache *)

(** X15.  Writing a compiler entry into the cache and looking the
    compiler up: a C++ entry is always the one found; a C entry is found
    unless there is a C++ entry; a CUDA entry is found only when there is
    neither; and once the three entries are deleted no compiler is
    found. *)
Theorem compiler_lookup_after_update (cache : gmap string CacheEntry) e :
  searchForCompilerPathInCache (<[ "CMAKE_CXX_COMPILER" := e ]> cache)
  = Some (value e)
  ∧ searchForCompilerPathInCache (<[ "CMAKE_C_COMPILER" := e ]> cache)
    = Some (match cache !! "CMAKE_CXX_COMPILER" with
            | Some cxx => value cxx
            | None => value e
            end)
  ∧ searchForCompilerPathInCache (<[ "CMAKE_CUDA_COMPILER" := e ]> cache)
    = Some (match cache !! "CMAKE_CXX_COMPILER", cache !! "CMAKE_C_COMPILER" with
            | Some cxx, _ => value cxx
            | None, Some c => value c
            | None, None => value e
            end)
  ∧ searchForCompilerPathInCache
      (delete "CMAKE_CXX_COMPILER"
         (delete "CMAKE_C_COMPILER" (delete "CMAKE_CUDA_COMPILER" cache)))
    = None.
Proof.
  rewrite !searchForCompilerPathInCache_eq.
  split; [|split; [|split]].
  - by rewrite lookup_insert_eq.
  - rewrite lookup_insert_eq, lookup_insert_ne by done.
    by destruct (cache !! "CMAKE_CXX_COMPILER").
  - rewrite lookup_insert_eq, !lookup_insert_ne by done.
    destruct (cache !! "CMAKE_CXX_COMPILER"); [done|].
    by destruct (cache !! "CMAKE_C_COMPILER").
  - rewrite lookup_delete_eq.
    rewrite lookup_delete_ne, lookup_delete_eq by done.
    by rewrite !lookup_delete_ne, lookup_delete_eq by done.
Qed.

(** ** The generic fallback for lldb *)

(** X16.  When the preferred family is lldb (asked for, or the default
    on [darwin]) and no candidate of steps 1 to 3 answers, the generic
    path decides.  If it does not mention [lldb], the result is [null]
    and nothing more is probed.  If it mentions [lldb], the LLDB builder
    probes it once: the result is the LLDB configuration with that path
    when it answers and otherwise the error, whose message is the one
    about GDB with that path; no other command is tried. *)
Theorem lldb_generic_fallback
        host cache target platform modeOverride debuggerPathOverride
        compiler_path :
  msvc_linker cache = false →
  accepted_override host debuggerPathOverride = None →
  searchForCompilerPathInCache cache = Some compiler_path →
  JsString.endsWith compiler_path "cl.exe" = false →
  preferred_mode platform modeOverride = lldb →
  (∀ c, c ∈ derived_candidates host modeOverride compiler_path →
        probe_ok host (candidate_path c) = false) →
  let generic_path := generic_debugger_path host compiler_path lldb in
  let r := getDebugConfigurationFromCache host cache target platform
             modeOverride debuggerPathOverride in
  probed (events r)
  = (map candidate_path (derived_candidates host modeOverride compiler_path)
     ++ (if contains generic_path "lldb" then [generic_path] else []))%list
  ∧ outcome r
    = if contains generic_path "lldb"
      then if probe_ok host generic_path
           then Returned (Some (lldb_configuration host generic_path target))
           else Thrown (localize host "gdb.not.found"
                          "Unable to find GDB in default search path and {0}."
                          [generic_path])
      else Returned None.
Proof.
  intros Hlinker Hoverride Hcompiler Hcl Hmode Hfail generic_path r. subst r.
  rewrite (reaches_generic_fallback _ _ _ _ _ _ compiler_path) by done.
  rewrite Hmode. unfold generic_fallback. cbv zeta.
  fold generic_path. cbn [MIModes_value].
  rewrite events_after, outcome_after, !probed_app, probed_override_warning,
    probed_probes, app_nil_l.
  destruct (contains generic_path "lldb"); [|done].
  cbn [DEBUG_GEN createConfig].
  rewrite createLLDBDebugConfiguration_eq.
  by destruct (probe_ok host generic_path).
Qed.

Lemma lldb_generic_fallback_witness :
  let host := posix_host ["lldb"] ["/usr/bin/gcc"] None in
  let r := getDebugConfigurationFromCache host (cxx_cache "/usr/bin/gcc")
             hello "darwin" None None in
  probed (events r) = ["/usr/bin/lldb"]
  ∧ outcome r
    = Thrown "Unable to find GDB in default search path and /usr/bin/lldb.".
Proof.
  apply (lldb_generic_fallback (posix_host ["lldb"] ["/usr/bin/gcc"] None)
           (cxx_cache "/usr/bin/gcc") hello "darwin" None None
           "/usr/bin/gcc"); try reflexivity.
  intros c Hc. vm_compute in Hc. by apply elem_of_nil in Hc.
Defined.
